(** * metaflac_gui.py: the tag form and its exchanges with metaflac

    A shallow embedding of [src/metaflac_gui.py]: the Python string
    methods the program calls, the form (the Entry widgets of
    [tag_entries] and the [custom_tags_text] area), the handlers
    [load_tags], [save_tags], [save_tags_and_exit], [remove_all_tags],
    [clear_form], [check_metaflac] and the start-up code [main].

    Characters are the Standard Library's 8-bit [ascii]; the string
    methods are modelled on that range: [str.isspace] as Python defines
    it below 256, [str.upper] and [str.lower] on the 7-bit letters,
    which is all that a comparison with the 7-bit names of
    [common_tags] or with [.flac] can observe. The external tool is a
    parameter of the handlers: a world and what launching an argument
    vector does to it. *)

From Stdlib Require Import Bool Arith Lia List ZArith Ascii String Permutation.
Import ListNotations.

Local Open Scope string_scope.
Local Open Scope list_scope.

(** ** Python's [str] methods *)

Module Py.

Definition nl : ascii := "010"%char.
Definition eq_sign : ascii := "="%char.

(** [c.isspace()] for a code point below 256: TAB..CR, FS..US, SPACE,
    NEL (0x85) and NBSP (0xA0). *)
Definition isspace (c : ascii) : bool :=
  let n := nat_of_ascii c in
  (((9 <=? n) && (n <=? 13)) || ((28 <=? n) && (n <=? 32))
   || (n =? 133) || (n =? 160))%nat.

(** [s.lstrip()] *)
Fixpoint lstrip (s : string) : string :=
  match s with
  | EmptyString => EmptyString
  | String c s' => if isspace c then lstrip s' else s
  end.

(** [s.rstrip()] *)
Fixpoint rstrip (s : string) : string :=
  match s with
  | EmptyString => EmptyString
  | String c s' =>
      match rstrip s' with
      | EmptyString => if isspace c then EmptyString else String c EmptyString
      | r => String c r
      end
  end.

(** [s.strip()] *)
Definition strip (s : string) : string := lstrip (rstrip s).

(** [s.split(sep)] for a one-character separator: never empty,
    [''.split(sep) == ['']]. *)
Fixpoint split (sep : ascii) (s : string) : list string :=
  match s with
  | EmptyString => [EmptyString]
  | String c s' =>
      if Ascii.eqb c sep then EmptyString :: split sep s'
      else match split sep s' with
           | h :: t => String c h :: t
           | [] => [String c EmptyString]
           end
  end.

(** [sep.join(ls)] for a one-character separator. *)
Fixpoint join (sep : ascii) (ls : list string) : string :=
  match ls with
  | [] => EmptyString
  | [l] => l
  | l :: ls' => l ++ String sep (join sep ls')
  end.

(** [s.split('\n')] and ['\n'.join(ls)] *)
Definition split_nl : string -> list string := split nl.
Definition join_nl : list string -> string := join nl.

(** ['=' in s] *)
Fixpoint has_eq (s : string) : bool :=
  match s with
  | EmptyString => false
  | String c s' => Ascii.eqb c eq_sign || has_eq s'
  end.

(** [s.split('=', 1)] when ['=' in s]: the text before the first ['=']
    and the text after it. *)
Fixpoint split_eq1 (s : string) : option (string * string) :=
  match s with
  | EmptyString => None
  | String c s' =>
      if Ascii.eqb c eq_sign then Some (EmptyString, s')
      else match split_eq1 s' with
           | Some (k, v) => Some (String c k, v)
           | None => None
           end
  end.

Definition upper_char (c : ascii) : ascii :=
  let n := nat_of_ascii c in
  if ((97 <=? n) && (n <=? 122))%nat then ascii_of_nat (n - 32) else c.

(** [s.upper()] *)
Fixpoint upper (s : string) : string :=
  match s with
  | EmptyString => EmptyString
  | String c s' => String (upper_char c) (upper s')
  end.

Fixpoint lower (s : string) : string :=
  match s with
  | EmptyString => EmptyString
  | String c s' =>
      let n := nat_of_ascii c in
      String (if ((65 <=? n) && (n <=? 90))%nat then ascii_of_nat (n + 32)
              else c)
             (lower s')
  end.

(** [s.endswith(suffix)] *)
Fixpoint endswith (s suffix : string) : bool :=
  (s =? suffix) ||
  match s with
  | EmptyString => false
  | String _ s' => endswith s' suffix
  end.

(** [s.startswith(p)] *)
Fixpoint startswith (s p : string) {struct p} : bool :=
  match p, s with
  | EmptyString, _ => true
  | String a p', String b s' => Ascii.eqb a b && startswith s' p'
  | String _ _, EmptyString => false
  end.

(** Truth value of a string: [bool(s)]. *)
Definition truthy (s : string) : bool :=
  match s with EmptyString => false | _ => true end.

(** [x in keys] for a list of strings. *)
Fixpoint mem (x : string) (l : list string) : bool :=
  match l with
  | [] => false
  | y :: l' => (x =? y) || mem x l'
  end.

End Py.


(** ** [os.path] on POSIX *)

Module PosixPath.

Definition slash : ascii := "/"%char.

Definition isabs (p : string) : bool := Py.startswith p "/".

(** [os.path.join(a, b)] *)
Definition join (a b : string) : string :=
  if Py.startswith b "/" then b
  else if negb (Py.truthy a) || Py.endswith a "/" then a ++ b
  else a ++ "/" ++ b.

(** The loop of [normpath] over the components, [new_comps] kept with
    its last element first. *)
Fixpoint norm_comps (initial_slashes : nat) (comps rev_new : list string)
  : list string :=
  match comps with
  | [] => rev_new
  | comp :: comps' =>
      if (comp =? "") || (comp =? ".") then
        norm_comps initial_slashes comps' rev_new
      else if negb (comp =? "..")
              || ((initial_slashes =? 0)%nat
                  && match rev_new with [] => true | _ => false end)
              || match rev_new with
                 | last :: _ => last =? ".."
                 | [] => false
                 end
      then norm_comps initial_slashes comps' (comp :: rev_new)
      else norm_comps initial_slashes comps' (List.tl rev_new)
  end.

Fixpoint slashes (n : nat) : string :=
  match n with O => "" | S n' => String slash (slashes n') end.

(** [os.path.normpath(path)] *)
Definition normpath (path : string) : string :=
  if path =? "" then "."
  else
    let initial_slashes :=
      if Py.startswith path "/" then
        if Py.startswith path "//" && negb (Py.startswith path "///")
        then 2 else 1
      else 0 in
    let comps := Py.split slash path in
    let new_comps := List.rev (norm_comps initial_slashes comps []) in
    let path' := (slashes initial_slashes ++ Py.join slash new_comps)%string in
    if Py.truthy path' then path' else ".".

(** [os.path.abspath(path)], the current directory given. *)
Definition abspath (cwd path : string) : string :=
  normpath (if isabs path then path else join cwd path).

(** [os.path.basename(p)]: what follows the last slash. *)
Definition basename (p : string) : string :=
  List.last (Py.split slash p) "".

End PosixPath.

(** ** Processes, exceptions and what the user sees *)

(** What [subprocess.run] finds when it launches an argument vector. *)
Inductive proc_result : Type :=
| Exited (returncode : Z) (stdout stderr : string)
| ExecutableNotFound
| LaunchFailed (msg : string).

(** The exceptions the handlers distinguish. *)
Inductive exn : Type :=
| CalledProcessError (cmd : list string) (returncode : Z) (stderr : string)
| FileNotFoundError
| OtherException (msg : string).

(** The text of a dialog; an exception formatted into an f-string is
    kept as a value. *)
Inductive message : Type :=
| Msg (text : string)
| MsgExn (text : string) (e : exn).

Inductive event : Type :=
| Run (argv : list string)
| ShowError (title : string) (body : message)
| ShowWarning (title : string) (body : message)
| ShowInfo (title : string) (body : message)
| AskYesNo (title : string) (body : message) (answer : bool)
| Quit.

(** ** The form *)

(** [self.common_tags] *)
Definition common_tags : list string :=
  [ "BPM"; "GENRE"; "TITLE"; "ARTIST"; "ALBUM"; "DATE"; "TRACKNUMBER";
    "ALBUMARTIST"; "COMPOSER"; "PERFORMER"; "CONDUCTOR"; "COMMENT";
    "DISCNUMBER"; "TOTALTRACKS"; "TOTALDISCS"; "MUSICBRAINZ_TRACKID";
    "MUSICBRAINZ_ALBUMID"; "MUSICBRAINZ_ARTISTID"; "ISRC" ].

(** [self.tag_entries]: a dict from tag name to its Entry widget, in
    insertion order; an Entry is the text it holds. *)
Definition entries : Type := list (string * string).

Record form : Type := mkForm {
  current_file : option string;
  tag_entries : entries;
  (** the Text widget, without the newline Tk keeps at its end *)
  custom_tags_text : string;
  status_var : string;
  success_var : string
}.

(** [setup_ui]: one empty Entry per common tag. *)
Definition setup_entries : entries := map (fun tag => (tag, "")) common_tags.

Definition keys (es : entries) : list string := map fst es.

(** [key in self.tag_entries] *)
Definition has_key (key : string) (es : entries) : bool := Py.mem key (keys es).

(** [self.tag_entries[key].get()] *)
Fixpoint entry_get (key : string) (es : entries) : string :=
  match es with
  | [] => ""
  | (k, v) :: es' => if k =? key then v else entry_get key es'
  end.

(** [self.tag_entries[key].delete(0, tk.END)] followed by
    [self.tag_entries[key].insert(0, value)] *)
Fixpoint entry_set (key value : string) (es : entries) : entries :=
  match es with
  | [] => []
  | (k, v) :: es' =>
      if k =? key then (k, value) :: es' else (k, v) :: entry_set key value es'
  end.

(** [self.custom_tags_text.get(1.0, tk.END)] *)
Definition text_get (f : form) : string :=
  (custom_tags_text f ++ String Py.nl "")%string.

(** Truth value of [self.current_file]. *)
Definition file_selected (f : form) : option string :=
  match current_file f with
  | Some p => if Py.truthy p then Some p else None
  | None => None
  end.

(** The body of the loop of [load_tags] over the lines of the export. *)
Definition load_line (acc : entries * list string) (line : string)
  : entries * list string :=
  let '(es, custom_tags) := acc in
  if Py.has_eq line then
    match Py.split_eq1 line with
    | Some (key, value) =>
        let key := Py.upper key in
        if has_key key es then (entry_set key value es, custom_tags)
        else (es, custom_tags ++ [line])
    | None => acc
    end
  else acc.

(** The loop of [load_tags]: [custom_tags = []] and one pass over
    [result.stdout.strip().split('\n')]. *)
Definition load_lines (es : entries) (stdout : string)
  : entries * list string :=
  fold_left load_line (Py.split_nl (Py.strip stdout)) (es, []).

(** The argument vectors. *)
Definition cmd_version : list string := ["metaflac"; "--version"].
Definition cmd_export (file : string) : list string :=
  ["metaflac"; "--export-tags-to=-"; file].
Definition cmd_remove_all (file : string) : list string :=
  ["metaflac"; "--remove-all-tags"; file].
Definition cmd_set_tag (field file : string) : list string :=
  ["metaflac"; ("--set-tag=" ++ field)%string; file].

Definition install_text : string :=
  ("metaflac command not found. Please install flac package." ++ String Py.nl
   "On Ubuntu/Debian: sudo apt install flac" ++ String Py.nl
   "On Fedora/RHEL: sudo dnf install flac" ++ String Py.nl
   "On Arch: sudo pacman -S flac")%string.

(** ** The handlers *)

Section App.

(** Whatever [metaflac] acts on, and what launching an argument vector
    does to it. *)
Variable World : Type.
Variable launch : World -> list string -> World * proc_result.

Record state : Type := mkState {
  world : World;
  gui : form;
  (** oldest first *)
  trace : list event
}.

(** A computation returns or raises, and leaves a state. *)
Definition M (A : Type) : Type := state -> (A + exn) * state.

Definition ret {A} (a : A) : M A := fun s => (inl a, s).
Definition raise {A} (e : exn) : M A := fun s => (inr e, s).
Definition bind {A B} (m : M A) (k : A -> M B) : M B :=
  fun s => match m s with
           | (inl a, s') => k a s'
           | (inr e, s') => (inr e, s')
           end.

(** [try: m except ...: h e]; [h e = None] when no clause matches. *)
Definition try_except {A} (m : M A) (h : exn -> option (M A)) : M A :=
  fun s => match m s with
           | (inl a, s') => (inl a, s')
           | (inr e, s') => match h e with
                            | Some k => k s'
                            | None => (inr e, s')
                            end
           end.

Notation "x <- m ;; k" := (bind m (fun x => k))
  (at level 61, m at next level, right associativity).
Notation "m ;;; k" := (bind m (fun _ => k))
  (at level 61, right associativity).

(** [for x in l: body x] *)
Fixpoint for_each {A} (l : list A) (body : A -> M unit) : M unit :=
  match l with
  | [] => ret tt
  | x :: l' => body x ;;; for_each l' body
  end.

Definition emit (e : event) : M unit :=
  fun s => (inl tt, mkState (world s) (gui s) (trace s ++ [e])).
Definition get_gui : M form := fun s => (inl (gui s), s).
Definition modify_gui (u : form -> form) : M unit :=
  fun s => (inl tt, mkState (world s) (u (gui s)) (trace s)).

(** [subprocess.run(argv, check=True)]; the value is [result.stdout]. *)
Definition subprocess_run (argv : list string) : M string :=
  fun s =>
    let '(w', r) := launch (world s) argv in
    let s' := mkState w' (gui s) (trace s ++ [Run argv]) in
    match r with
    | Exited rc out err =>
        if (rc =? 0)%Z then (inl out, s')
        else (inr (CalledProcessError argv rc err), s')
    | ExecutableNotFound => (inr FileNotFoundError, s')
    | LaunchFailed msg => (inr (OtherException msg), s')
    end.

Definition check_metaflac : M bool :=
  try_except
    (subprocess_run cmd_version ;;; ret true)
    (fun e => match e with
              | CalledProcessError _ _ _ | FileNotFoundError =>
                  Some (emit (ShowError "Error" (Msg install_text)) ;;;
                        ret false)
              | OtherException _ => None
              end).

Definition set_status (t : string) (f : form) : form :=
  mkForm (current_file f) (tag_entries f) (custom_tags_text f) t (success_var f).
Definition set_success (t : string) (f : form) : form :=
  mkForm (current_file f) (tag_entries f) (custom_tags_text f) (status_var f) t.
Definition set_entries (es : entries) (f : form) : form :=
  mkForm (current_file f) es (custom_tags_text f) (status_var f) (success_var f).
Definition set_custom_text (t : string) (f : form) : form :=
  mkForm (current_file f) (tag_entries f) t (status_var f) (success_var f).

Definition cleared (es : entries) : entries := map (fun kv => (fst kv, "")) es.

Definition clear_form_pure (f : form) : form :=
  set_success "" (set_custom_text "" (set_entries (cleared (tag_entries f)) f)).

Definition clear_form : M unit := modify_gui clear_form_pure.

Definition no_file_warning : M unit :=
  emit (ShowWarning "Warning" (Msg "Please select a FLAC file first")).

(** What [load_tags] does to the form with the captured export. *)
Definition show_export (file stdout : string) (f : form) : form :=
  let '(es, custom_tags) := load_lines (tag_entries f) stdout in
  let f := set_entries es f in
  let f := match custom_tags with
           | [] => f
           | _ => set_custom_text (Py.join_nl custom_tags) f
           end in
  set_success ""
    (set_status ("Loaded tags from " ++ PosixPath.basename file) f).

Definition load_tags : M unit :=
  f <- get_gui ;;
  match file_selected f with
  | None => no_file_warning
  | Some file =>
      ok <- check_metaflac ;;
      if negb ok then ret tt
      else
        try_except
          (clear_form ;;;
           stdout <- subprocess_run (cmd_export file) ;;
           modify_gui (show_export file stdout))
          (fun e => match e with
                    | CalledProcessError _ _ err =>
                        Some (emit (ShowError "Error"
                                      (Msg ("Failed to load tags: " ++ err))))
                    | _ => Some (emit (ShowError "Error"
                                         (MsgExn "Unexpected error: " e)))
                    end)
  end.

(** The two loops shared by [save_tags] and [save_tags_and_exit], after
    the removal of the existing tags. *)
Definition write_common_tags (file : string) (es : entries) : M unit :=
  for_each es (fun '(tag, text) =>
    let value := Py.strip text in
    if Py.truthy value then
      subprocess_run (cmd_set_tag (tag ++ "=" ++ value) file) ;;; ret tt
    else ret tt).

Definition write_custom_tags (file : string) (f : form) : M unit :=
  let custom_text := Py.strip (text_get f) in
  if Py.truthy custom_text then
    for_each (Py.split_nl custom_text) (fun line =>
      let line := Py.strip line in
      if Py.truthy line && Py.has_eq line then
        subprocess_run (cmd_set_tag line file) ;;; ret tt
      else ret tt)
  else ret tt.

Definition write_tags (file : string) (f : form) : M unit :=
  subprocess_run (cmd_remove_all file) ;;;
  write_common_tags file (tag_entries f) ;;;
  write_custom_tags file f.

Definition save_failed : exn -> option (M unit) :=
  fun e => match e with
           | CalledProcessError _ _ _ =>
               Some (emit (ShowError "Error" (MsgExn "Failed to save tags: " e)))
           | _ => Some (emit (ShowError "Error" (MsgExn "Unexpected error: " e)))
           end.

(** [now] is [datetime.now().strftime("%Y-%m-%d %H:%M:%S")]. *)
Definition save_tags (now : string) : M unit :=
  f <- get_gui ;;
  match file_selected f with
  | None => no_file_warning
  | Some file =>
      ok <- check_metaflac ;;
      if negb ok then ret tt
      else
        try_except
          (write_tags file f ;;;
           modify_gui (fun f =>
             set_success (now ++ " - Tags saved successfully!")
               (set_status ("Tags saved to " ++ PosixPath.basename file) f)))
          save_failed
  end.

Definition save_tags_and_exit : M unit :=
  f <- get_gui ;;
  match file_selected f with
  | None => no_file_warning
  | Some file =>
      ok <- check_metaflac ;;
      if negb ok then ret tt
      else try_except (write_tags file f ;;; emit Quit) save_failed
  end.

(** [answer] is what the user replies to the confirmation. *)
Definition remove_all_tags (answer : bool) : M unit :=
  f <- get_gui ;;
  match file_selected f with
  | None => no_file_warning
  | Some file =>
      emit (AskYesNo "Confirm" (Msg "Remove all tags from this file?") answer) ;;;
      if negb answer then ret tt
      else
        ok <- check_metaflac ;;
        if negb ok then ret tt
        else
          try_except
            (subprocess_run (cmd_remove_all file) ;;;
             clear_form ;;;
             modify_gui (set_status
               ("All tags removed from " ++ PosixPath.basename file)) ;;;
             emit (ShowInfo "Success" (Msg "All tags removed successfully!")))
            (fun e => match e with
                      | CalledProcessError _ _ _ =>
                          Some (emit (ShowError "Error"
                                        (MsgExn "Failed to remove tags: " e)))
                      | _ => None
                      end)
  end.

End App.

Arguments mkState {World}.
Arguments world {World}.
Arguments gui {World}.
Arguments trace {World}.

(** ** Start-up *)

Inductive startup : Type :=
| Exit (status : Z) (stdout stderr : string)
| Window (initial_file : option string).

(** [main], after [parse_args]: [file] is [args.file], [path_exists] is
    [os.path.exists] and [cwd] the current directory. *)
Definition main (path_exists : string -> bool) (cwd : string)
  (file : option string) : startup :=
  match file with
  | Some file =>
      if Py.truthy file then
        if path_exists file && Py.endswith (Py.lower file) ".flac"
        then Window (Some (PosixPath.abspath cwd file))
        else Exit 1 ("Error: File '" ++ file ++
                     "' does not exist or is not a FLAC file." ++
                     String Py.nl "") ""
      else Window None
  | None => Window None
  end.

(** [MetaFLACGUI.__init__]: the form when the window opens, before the
    initial [load_tags]. *)
Definition init_form (initial_file : option string) : form :=
  mkForm initial_file setup_entries "" "Ready - Select a FLAC file to begin" "".

(** ** Text mode *)

Definition cr : ascii := "013"%char.

(** What [subprocess.run(..., text=True)] makes of the line ends of the
    captured output: [\r\n] and a lone [\r] are read as [\n].
    [after_cr] says that the character before was a [\r]. *)
Fixpoint translate_newlines (after_cr : bool) (s : string) : string :=
  match s with
  | EmptyString => EmptyString
  | String c s' =>
      if Ascii.eqb c cr then String Py.nl (translate_newlines true s')
      else if Ascii.eqb c Py.nl then
        if after_cr then translate_newlines false s'
        else String Py.nl (translate_newlines false s')
      else String c (translate_newlines false s')
  end.

Definition universal_newlines (s : string) : string :=
  translate_newlines false s.

(** ** The external tool *)

Module Metaflac.

(** A machine with at most one FLAC file on it. *)
Record disk : Type := mkDisk {
  installed : bool;
  flac_path : string;
  comments : list string
}.

(** [s.removeprefix(p)], [None] when [s] does not start with [p]. *)
Fixpoint after_prefix (p s : string) : option string :=
  match p, s with
  | EmptyString, _ => Some s
  | String a p', String b s' =>
      if Ascii.eqb a b then after_prefix p' s' else None
  | String _ _, EmptyString => None
  end.

(** The export stream: one comment per line. *)
Fixpoint export (cs : list string) : string :=
  match cs with
  | [] => ""
  | c :: cs' => c ++ String Py.nl (export cs')
  end.

(** Modelled from the spec: the external metadata tool of section 6,
    which is not part of the repository. The version probe succeeds when
    the tool is installed; export-tags-to-stream prints the comments one
    per line, in the order [arrange] puts them, since the spec
    guarantees none, and the handlers capture that stream with
    [text=True], so that the standard output they are given is the
    stream after [universal_newlines]; remove-all-tags empties them; set-tag appends its [KEY=VALUE]
    argument and does not dedupe; success or failure shows in the exit
    code. [accepts] says which set-tag arguments the tool takes. *)
Definition run (arrange : list string -> list string)
  (accepts : string -> bool) (d : disk) (argv : list string)
  : disk * proc_result :=
  if negb (installed d) then (d, ExecutableNotFound)
  else
    match argv with
    | [_; opt] =>
        if opt =? "--version" then (d, Exited 0 "" "")
        else (d, Exited 1 "" "")
    | [_; opt; file] =>
        if negb (file =? flac_path d) then (d, Exited 1 "" "")
        else if opt =? "--export-tags-to=-" then
          (d, Exited 0 (universal_newlines (export (arrange (comments d)))) "")
        else if opt =? "--remove-all-tags" then
          (mkDisk (installed d) (flac_path d) [], Exited 0 "" "")
        else
          match after_prefix "--set-tag=" opt with
          | Some field =>
              if accepts field then
                (mkDisk (installed d) (flac_path d) (comments d ++ [field]),
                 Exited 0 "" "")
              else (d, Exited 1 "" "")
          | None => (d, Exited 1 "" "")
          end
    | _ => (d, Exited 1 "" "")
    end.

(** A tool that takes a field when its name is not empty. *)
Definition named (field : string) : bool :=
  match Py.split_eq1 field with
  | Some (name, _) => Py.truthy name
  | None => false
  end.

End Metaflac.

(** ** What a save is meant to launch *)

(** The [NAME=VALUE] arguments of the first loop of a save. *)
Definition common_fields (es : entries) : list string :=
  flat_map (fun '(tag, text) =>
    let value := Py.strip text in
    if Py.truthy value then [(tag ++ "=" ++ value)%string] else []) es.

(** The arguments of its second loop. *)
Definition custom_field (line : string) : list string :=
  let line := Py.strip line in
  if Py.truthy line && Py.has_eq line then [line] else [].

Definition custom_fields (f : form) : list string :=
  let custom_text := Py.strip (text_get f) in
  if Py.truthy custom_text then
    flat_map custom_field (Py.split_nl custom_text)
  else [].

Definition save_plan (file : string) (f : form) : list (list string) :=
  cmd_remove_all file ::
  map (fun field => cmd_set_tag field file)
      (common_fields (tag_entries f) ++ custom_fields f).

Section Exec.

Variable World : Type.
Variable launch : World -> list string -> World * proc_result.

(** Launching argument vectors one after the other until one fails:
    the world reached, the vectors launched, and the exception if any. *)
Fixpoint exec (w : World) (cmds : list (list string))
  : World * list (list string) * option exn :=
  match cmds with
  | [] => (w, [], None)
  | argv :: cmds' =>
      let '(w', r) := launch w argv in
      match r with
      | Exited rc _ err =>
          if (rc =? 0)%Z then
            let '(w'', ran, e) := exec w' cmds' in (w'', argv :: ran, e)
          else (w', [argv], Some (CalledProcessError argv rc err))
      | ExecutableNotFound => (w', [argv], Some FileNotFoundError)
      | LaunchFailed msg => (w', [argv], Some (OtherException msg))
      end
  end.

(** [exec] as a computation on the state of the handlers. *)
Definition exec_m (cmds : list (list string)) : M World unit :=
  fun s =>
    let '(w', ran, e) := exec (world s) cmds in
    (match e with None => inl tt | Some x => inr x end,
     mkState w' (gui s) (trace s ++ map Run ran)).

(** The argument vectors among the events. *)
Fixpoint runs (t : list event) : list (list string) :=
  match t with
  | [] => []
  | Run argv :: t' => argv :: runs t'
  | _ :: t' => runs t'
  end.

End Exec.

Arguments exec {World}.
Arguments exec_m {World}.

(** ** Vocabulary of the statements *)

(** Every character of [s] is white space. *)
Fixpoint blank (s : string) : bool :=
  match s with
  | EmptyString => true
  | String c s' => Py.isspace c && blank s'
  end.

(** [s] has no line break. *)
Fixpoint one_line (s : string) : bool :=
  match s with
  | EmptyString => true
  | String c s' => negb (Ascii.eqb c Py.nl) && one_line s'
  end.



(** The first loop of [load_lines] keeps a line apart when its key,
    upper-cased, is no key of the form. *)
Definition key_of (line : string) : string :=
  match Py.split_eq1 line with
  | Some (key, _) => Py.upper key
  | None => ""
  end.

Definition value_of (line : string) : string :=
  match Py.split_eq1 line with
  | Some (_, value) => value
  | None => ""
  end.

(** A line that names the well-known field [tag]. *)
Definition names_tag (tag line : string) : bool :=
  Py.has_eq line && (key_of line =? tag).

(** A line with ['='] whose key is well known. *)
Definition well_known (line : string) : bool :=
  Py.has_eq line && Py.mem (key_of line) common_tags.

(** A line with ['='] whose key is not. *)
Definition custom_line (line : string) : bool :=
  Py.has_eq line && negb (Py.mem (key_of line) common_tags).

(** The value of the last line of [lines] that names [tag], [dflt] when
    there is none. *)
Fixpoint last_value (tag : string) (lines : list string) (dflt : string)
  : string :=
  match lines with
  | [] => dflt
  | l :: lines' =>
      last_value tag lines' (if names_tag tag l then value_of l else dflt)
  end.

(** The version probe finds no executable or exits non-zero. *)
Definition probe_fails (r : proc_result) : Prop :=
  match r with
  | Exited rc _ _ => rc <> 0%Z
  | ExecutableNotFound => True
  | LaunchFailed _ => False
  end.

(** A launch that makes [subprocess.run(..., check=True)] raise. *)
Definition raises (r : proc_result) : Prop :=
  match r with
  | Exited rc _ _ => rc <> 0%Z
  | ExecutableNotFound | LaunchFailed _ => True
  end.

(** Every Entry is empty. *)
Definition all_empty (es : entries) : Prop := Forall (fun kv => snd kv = "") es.


(** The number of Entries that hold something. *)
Definition populated (es : entries) : nat :=
  List.length (filter (fun kv => Py.truthy (snd kv)) es).

(** The well-known fields that some line of [lines] names. *)
Definition named_tags (lines : list string) : list string :=
  filter (fun tag => existsb (names_tag tag) lines) common_tags.

(** What the statements need of a tag name: one line, no ['='], already
    upper case, not empty and no leading blank. *)
Definition good_tag (tag : string) : bool :=
  one_line tag && negb (Py.has_eq tag) && (Py.upper tag =? tag)%string
  && Py.truthy tag && (Py.lstrip tag =? tag)%string.

Fixpoint distinct (l : list string) : bool :=
  match l with
  | [] => true
  | x :: l' => negb (Py.mem x l') && distinct l'
  end.

(** A line as the tool prints it back unchanged: one line, not empty,
    no blank at either end. *)
Definition tidy (l : string) : Prop :=
  one_line l = true /\ Py.truthy l = true /\
  Py.lstrip l = l /\ Py.rstrip l = l.

(** The form with every Entry trimmed. *)
Definition trimmed (es : entries) : entries :=
  map (fun kv => (fst kv, Py.strip (snd kv))) es.

(** A form filled by hand: the given texts typed into their Entries and
    [custom] into the custom area. *)
Definition fill_form (file : option string) (typed : list (string * string))
  (custom : string) : form :=
  mkForm file
    (fold_left (fun es kv => entry_set (fst kv) (snd kv) es) typed setup_entries)
    custom "" "".

(** What the first loop of a save writes for a tag, read off the form. *)
Definition written_for (es : entries) (tag : string) : list string :=
  let value := Py.strip (entry_get tag es) in
  if Py.truthy value then [(tag ++ "=" ++ value)%string] else [].

(** A machine for the examples: the file of the scenario of the
    specification, and a tool that wants a name before the ['='] and
    exports the comments in the order they were written. *)
Definition demo_path : string := "/music/a.flac".
Definition demo_disk (cs : list string) : Metaflac.disk :=
  Metaflac.mkDisk true demo_path cs.
Definition in_order (cs : list string) : list string := cs.
Definition demo_tool : Metaflac.disk -> list string -> Metaflac.disk * proc_result :=
  Metaflac.run in_order Metaflac.named.
Definition NL : string := String Py.nl "".

(** The scenario of the specification: the file holds a title, an
    artist and one custom tag. *)
Definition scenario_disk : Metaflac.disk :=
  demo_disk ["TITLE=Song"; "ARTIST=Band"; "XCUSTOM=1"].

(** The form once that file is loaded and the artist erased. *)
Definition edited_form : form :=
  fill_form (Some demo_path) [("TITLE", "Song"); ("ARTIST", "")] "XCUSTOM=1".

(** The same with a single space typed as the artist. *)
Definition blank_artist_form : form :=
  fill_form (Some demo_path) [("TITLE", "Song"); ("ARTIST", " ")] "XCUSTOM=1".

(** A title with blanks around it, a blank artist, and two custom lines
    of which the first has blanks around it. *)
Definition untidy_form : form :=
  fill_form (Some demo_path) [("TITLE", "  Song "); ("ARTIST", "   ")]
    ("  MOOD=calm " ++ NL ++ "XCUSTOM=1").

(** A custom area whose first line the tool refuses. *)
Definition refused_form : form :=
  fill_form (Some demo_path) [("TITLE", "Song")] ("=bad" ++ NL ++ "FOO=bar").

Definition demo_now : string := "2024-05-01 10:00:00".

(** ** The other handlers *)


Definition cmd_list (file : string) : list string :=
  ["metaflac"; "--list"; "--block-type=VORBIS_COMMENT"; file].

Section MoreHandlers.

Variable World : Type.
Variable launch : World -> list string -> World * proc_result.

(** [show_raw_output]: the value is the title and the text of the window
    it opens, [None] when it opens none. *)
Definition show_raw_output : M World (option (string * string)) :=
  bind World (get_gui World) (fun f =>
  match file_selected f with
  | None => bind World (no_file_warning World) (fun _ => ret World None)
  | Some file =>
      bind World (check_metaflac World launch) (fun ok =>
      if negb ok then ret World None
      else
        try_except World
          (bind World (subprocess_run World launch (cmd_list file))
             (fun stdout =>
                ret World
                  (Some (("Raw MetaFLAC Output - "
                          ++ PosixPath.basename file)%string, stdout))))
          (fun e => match e with
                    | CalledProcessError _ _ _ =>
                        Some (bind World
                                (emit World
                                   (ShowError "Error"
                                      (MsgExn "Failed to get raw output: " e)))
                                (fun _ => ret World None))
                    | _ => None
                    end))
  end).

(** [MetaFLACGUI.__init__] on the world [w]: the form of [init_form],
    and then, when [initial_file] is given, [self.file_var] set to it
    and [load_tags]. The pair is what the handler returns with the state
    it leaves, and [self.file_var]. *)
Definition app_init (initial_file : option string) (w : World)
  : ((unit + exn) * state World) * string :=
  let s0 := mkState w (init_form initial_file) [] in
  match file_selected (init_form initial_file) with
  | Some file => (load_tags World launch s0, file)
  | None => ((inl tt, s0), "")
  end.

End MoreHandlers.

(** The events [evs] launch only argument vectors that [allowed]
    admits. *)
Definition launches_only (allowed : list string -> Prop) (evs : list event)
  : Prop :=
  forall argv, In (Run argv) evs -> allowed argv.




(** * Properties *)

(** ** Sequences of launches *)

Section ExecFacts.

Variable World : Type.
Variable launch : World -> list string -> World * proc_result.

Lemma state_eta (s : state World) : mkState (world s) (gui s) (trace s) = s.
Proof. destruct s; reflexivity. Qed.

Lemma exec_m_nil (s : state World) : exec_m launch [] s = (inl tt, s).
Proof.
  unfold exec_m; simpl. rewrite app_nil_r, state_eta. reflexivity.
Qed.

Lemma exec_m_cons (argv : list string) (cmds : list (list string)) (s : state World) :
  exec_m launch (argv :: cmds) s =
  bind World (subprocess_run World launch argv) (fun _ => exec_m launch cmds) s.
Proof.
  unfold exec_m, bind, subprocess_run; simpl.
  destruct (launch (world s) argv) as [w' r].
  destruct r as [rc out err| |msg]; simpl; try reflexivity.
  destruct (rc =? 0)%Z; simpl; try reflexivity.
  destruct (exec launch w' cmds) as [[w'' ran] e]; simpl.
  rewrite <- app_assoc. reflexivity.
Qed.

Lemma exec_m_app (a b : list (list string)) (s : state World) :
  exec_m launch (a ++ b) s = bind World (exec_m launch a) (fun _ => exec_m launch b) s.
Proof.
  revert s; induction a as [|argv a IH]; intro s.
  - simpl. unfold bind. rewrite exec_m_nil. reflexivity.
  - simpl. unfold bind. rewrite !exec_m_cons. unfold bind.
    destruct (subprocess_run World launch argv s) as [[out|e] s1]; auto.
Qed.

Lemma for_each_exec {A} (body : A -> M World unit)
  (cmds : A -> list (list string)) (l : list A) :
  (forall x s, body x s = exec_m launch (cmds x) s) ->
  forall s, for_each World l body s = exec_m launch (flat_map cmds l) s.
Proof.
  intros Hb. induction l as [|x l IH]; intro s.
  - simpl. rewrite exec_m_nil. reflexivity.
  - simpl. rewrite exec_m_app. unfold bind. rewrite Hb.
    destruct (exec_m launch (cmds x) s) as [[[]|e] s1]; auto.
Qed.

Lemma run_one (argv : list string) (s : state World) :
  bind World (subprocess_run World launch argv) (fun _ => ret World tt) s
  = exec_m launch [argv] s.
Proof.
  rewrite exec_m_cons. unfold bind.
  destruct (subprocess_run World launch argv s) as [[out|e] s1]; auto.
  rewrite exec_m_nil. reflexivity.
Qed.

Lemma write_common_tags_exec (file : string) (es : entries) (s : state World) :
  write_common_tags World launch file es s =
  exec_m launch (map (fun field => cmd_set_tag field file) (common_fields es)) s.
Proof.
  unfold write_common_tags, common_fields.
  rewrite (for_each_exec _
    (fun kv : string * string =>
       map (fun field => cmd_set_tag field file)
         (let '(tag, text) := kv in
          if Py.truthy (Py.strip text)
          then [(tag ++ "=" ++ Py.strip text)%string] else []))).
  - f_equal. induction es as [|[tag text] es IH]; simpl; auto.
    rewrite map_app. f_equal. exact IH.
  - intros [tag text] s0. destruct (Py.truthy (Py.strip text)); simpl.
    + apply run_one.
    + rewrite exec_m_nil. reflexivity.
Qed.

Lemma write_custom_tags_exec (file : string) (f : form) (s : state World) :
  write_custom_tags World launch file f s =
  exec_m launch (map (fun field => cmd_set_tag field file) (custom_fields f)) s.
Proof.
  unfold write_custom_tags, custom_fields.
  destruct (Py.truthy (Py.strip (text_get f))).
  - rewrite (for_each_exec _
      (fun line : string =>
         map (fun field => cmd_set_tag field file) (custom_field line))).
    + f_equal. induction (Py.split_nl (Py.strip (text_get f))) as [|l ls IH];
        simpl; auto.
      rewrite map_app. f_equal. exact IH.
    + intros line s0. unfold custom_field.
      destruct (Py.truthy (Py.strip line) && Py.has_eq (Py.strip line)); simpl.
      * apply run_one.
      * rewrite exec_m_nil. reflexivity.
  - simpl. rewrite exec_m_nil. reflexivity.
Qed.

(** The body of a save is the sequential launch of its plan. *)
Lemma write_tags_exec (file : string) (f : form) (s : state World) :
  write_tags World launch file f s = exec_m launch (save_plan file f) s.
Proof.
  unfold write_tags, save_plan.
  rewrite exec_m_cons, map_app. unfold bind.
  destruct (subprocess_run World launch (cmd_remove_all file) s)
    as [[out|e] s1]; auto.
  rewrite exec_m_app. unfold bind.
  rewrite write_common_tags_exec.
  destruct (exec_m launch _ s1) as [[[]|e] s2]; auto.
  apply write_custom_tags_exec.
Qed.

End ExecFacts.

(** ** Strings *)

Lemma append_empty_r (s : string) : (s ++ "")%string = s.
Proof. induction s; simpl; congruence. Qed.

Lemma append_assoc' (a b c : string) :
  ((a ++ b) ++ c)%string = (a ++ (b ++ c))%string.
Proof. induction a; simpl; congruence. Qed.

Lemma rstrip_blank (s : string) : blank s = true -> Py.rstrip s = "".
Proof.
  induction s as [|c s IH]; simpl; auto.
  intros H; apply andb_prop in H as [Hc Hs].
  rewrite (IH Hs), Hc. reflexivity.
Qed.

Lemma rstrip_empty_blank (s : string) : Py.rstrip s = "" -> blank s = true.
Proof.
  induction s as [|c s IH]; simpl; auto.
  destruct (Py.rstrip s) eqn:E.
  - destruct (Py.isspace c); [intros _; simpl; auto | discriminate].
  - discriminate.
Qed.

Lemma lstrip_blank (s : string) : blank s = true -> Py.lstrip s = "".
Proof.
  induction s as [|c s IH]; simpl; auto.
  intros H; apply andb_prop in H as [Hc Hs]. rewrite Hc; auto.
Qed.

Lemma strip_blank (s : string) : blank s = true -> Py.strip s = "".
Proof. intros H. unfold Py.strip. rewrite (rstrip_blank _ H). reflexivity. Qed.

Lemma rstrip_cons (c : ascii) (s : string) :
  Py.rstrip (String c s) =
  if blank s && Py.isspace c then "" else String c (Py.rstrip s).
Proof.
  simpl. destruct (Py.rstrip s) eqn:E.
  - rewrite (rstrip_empty_blank _ E). simpl. destruct (Py.isspace c); auto.
  - destruct (blank s) eqn:B; auto.
    rewrite (rstrip_blank _ B) in E. discriminate.
Qed.

(** A leading blank does not show after [strip]. *)
Lemma strip_space_cons (c : ascii) (s : string) :
  Py.isspace c = true -> Py.strip (String c s) = Py.strip s.
Proof.
  intros Hc. unfold Py.strip. rewrite rstrip_cons, Hc, andb_true_r.
  destruct (blank s) eqn:B.
  - rewrite (rstrip_blank _ B). reflexivity.
  - simpl. rewrite Hc. reflexivity.
Qed.

Lemma strip_blank_app (w s : string) :
  blank w = true -> Py.strip (w ++ s) = Py.strip s.
Proof.
  induction w as [|c w IH]; simpl; auto.
  intros H; apply andb_prop in H as [Hc Hw].
  rewrite strip_space_cons; auto.
Qed.

Lemma blank_app (a b : string) : blank (a ++ b) = blank a && blank b.
Proof.
  induction a as [|c a IH]; simpl; auto.
  rewrite IH, andb_assoc. reflexivity.
Qed.

Lemma rstrip_app_blank (s w : string) :
  blank w = true -> Py.rstrip (s ++ w) = Py.rstrip s.
Proof.
  intros Hw. induction s as [|c s IH].
  - simpl. apply rstrip_blank; auto.
  - change (String c s ++ w)%string with (String c (s ++ w)).
    rewrite !rstrip_cons, IH, blank_app, Hw, andb_true_r. reflexivity.
Qed.

Lemma strip_app_blank (s w : string) :
  blank w = true -> Py.strip (s ++ w) = Py.strip s.
Proof. intros Hw. unfold Py.strip. rewrite rstrip_app_blank; auto. Qed.

(** [s] is a blank prefix followed by [lstrip s]. *)
Lemma lstrip_split (s : string) :
  exists w, blank w = true /\ s = (w ++ Py.lstrip s)%string.
Proof.
  induction s as [|c s [w [Hw E]]].
  - exists ""; auto.
  - simpl. destruct (Py.isspace c) eqn:Hc.
    + exists (String c w); simpl. rewrite Hc, Hw.
      split; [reflexivity | f_equal; exact E].
    + exists ""; auto.
Qed.

Lemma rstrip_split (s : string) :
  exists w, blank w = true /\ s = (Py.rstrip s ++ w)%string.
Proof.
  induction s as [|c s [w [Hw E]]].
  - exists ""; auto.
  - rewrite rstrip_cons. destruct (blank s) eqn:B; simpl.
    + destruct (Py.isspace c) eqn:Hc.
      * exists (String c s); simpl. rewrite Hc, B; auto.
      * exists w. split; [assumption | simpl; f_equal; exact E].
    + exists w. split; [assumption | simpl; f_equal; exact E].
Qed.

Lemma strip_split (s : string) :
  exists a b, blank a = true /\ blank b = true /\
              s = (a ++ Py.strip s ++ b)%string.
Proof.
  destruct (rstrip_split s) as [b [Hb Eb]].
  destruct (lstrip_split (Py.rstrip s)) as [a [Ha Ea]].
  exists a, b. repeat split; auto.
  unfold Py.strip. rewrite <- append_assoc', <- Ea. exact Eb.
Qed.

(** ** The lines of the custom area *)

Lemma split_nonempty (sep : ascii) (s : string) : Py.split sep s <> [].
Proof.
  destruct s as [|c s]; simpl; try discriminate.
  destruct (Ascii.eqb c sep); try discriminate.
  destruct (Py.split sep s); discriminate.
Qed.

Lemma split_cons_other (sep c : ascii) (s : string) :
  Ascii.eqb c sep = false ->
  exists h t, Py.split sep s = h :: t /\
              Py.split sep (String c s) = String c h :: t.
Proof.
  intros H. simpl. rewrite H.
  destruct (Py.split sep s) as [|h t] eqn:E.
  - destruct (split_nonempty _ _ E).
  - exists h, t; auto.
Qed.

Lemma has_eq_truthy (s : string) : Py.has_eq s = true -> Py.truthy s = true.
Proof. destruct s; simpl; auto; discriminate. Qed.

Lemma custom_field_space_cons (c : ascii) (s : string) :
  Py.isspace c = true -> custom_field (String c s) = custom_field s.
Proof. intros H. unfold custom_field. rewrite strip_space_cons; auto. Qed.

Lemma custom_field_blank (s : string) : blank s = true -> custom_field s = [].
Proof. intros H. unfold custom_field. rewrite strip_blank; auto. Qed.

Lemma custom_field_app_blank (s w : string) :
  blank w = true -> custom_field (s ++ w) = custom_field s.
Proof. intros H. unfold custom_field. rewrite strip_app_blank; auto. Qed.

Lemma fields_blank_prefix (p x : string) :
  blank p = true ->
  flat_map custom_field (Py.split_nl (p ++ x)) =
  flat_map custom_field (Py.split_nl x).
Proof.
  unfold Py.split_nl. induction p as [|c p IH]; simpl; auto.
  intros H; apply andb_prop in H as [Hc Hp].
  destruct (Ascii.eqb c Py.nl) eqn:E.
  - change (flat_map custom_field ("" :: Py.split Py.nl (p ++ x)))
      with (custom_field "" ++ flat_map custom_field (Py.split Py.nl (p ++ x))).
    rewrite custom_field_blank by reflexivity. apply IH; assumption.
  - destruct (Py.split Py.nl (p ++ x)) as [|h t] eqn:S.
    + destruct (split_nonempty _ _ S).
    + change (flat_map custom_field (String c h :: t))
        with (custom_field (String c h) ++ flat_map custom_field t).
      rewrite custom_field_space_cons by assumption.
      rewrite <- (IH Hp). reflexivity.
Qed.

Lemma fields_all_blank (w : string) :
  blank w = true -> flat_map custom_field (Py.split_nl w) = [].
Proof.
  intros H. rewrite <- (append_empty_r w), fields_blank_prefix; auto.
Qed.

(** The fields of the lines, the first line continuing [pre]. *)
Lemma fields_blank_suffix_pre (x w pre : string) :
  blank w = true ->
  match Py.split_nl (x ++ w), Py.split_nl x with
  | h :: t, h0 :: t0 =>
      custom_field (pre ++ h) ++ flat_map custom_field t =
      custom_field (pre ++ h0) ++ flat_map custom_field t0
  | _, _ => False
  end.
Proof.
  intros Hw. unfold Py.split_nl. revert pre.
  induction x as [|c x IH]; intro pre.
  - simpl. destruct (Py.split Py.nl w) as [|h t] eqn:S.
    + destruct (split_nonempty _ _ S).
    + pose proof (fields_all_blank w Hw) as F.
      unfold Py.split_nl in F. rewrite S in F. simpl in F.
      apply app_eq_nil in F as [Fh Ft]. rewrite Ft.
      assert (Bh : blank h = true).
      { clear - S Hw. revert h t S.
        induction w as [|c w IHw]; intros h t S; simpl in *.
        - injection S as <- <-. reflexivity.
        - apply andb_prop in Hw as [Hc Hw'].
          destruct (Ascii.eqb c Py.nl).
          + injection S as <- <-. reflexivity.
          + destruct (Py.split Py.nl w) as [|h' t'] eqn:S'.
            * injection S as <- <-. simpl. rewrite Hc. reflexivity.
            * injection S as <- <-. simpl. rewrite Hc.
              apply (IHw Hw' h' t' eq_refl). }
      rewrite custom_field_app_blank, append_empty_r; auto.
  - change (String c x ++ w)%string with (String c (x ++ w)).
    simpl. destruct (Ascii.eqb c Py.nl) eqn:E.
    + simpl. f_equal. specialize (IH "").
      destruct (Py.split Py.nl (x ++ w)) as [|h t];
        destruct (Py.split Py.nl x) as [|h0 t0]; try contradiction.
      simpl in *. exact IH.
    + specialize (IH (pre ++ String c "")%string).
      destruct (Py.split Py.nl (x ++ w)) as [|h t];
        destruct (Py.split Py.nl x) as [|h0 t0]; try contradiction.
      rewrite !append_assoc' in IH. simpl in IH. simpl. exact IH.
Qed.

Lemma fields_blank_suffix (x w : string) :
  blank w = true ->
  flat_map custom_field (Py.split_nl (x ++ w)) =
  flat_map custom_field (Py.split_nl x).
Proof.
  intros Hw. pose proof (fields_blank_suffix_pre x w "" Hw) as H.
  destruct (Py.split_nl (x ++ w)) as [|h t];
    destruct (Py.split_nl x) as [|h0 t0]; try contradiction.
  exact H.
Qed.

Lemma fields_strip (t : string) :
  flat_map custom_field (Py.split_nl (Py.strip t)) =
  flat_map custom_field (Py.split_nl t).
Proof.
  destruct (strip_split t) as [a [b [Ha [Hb E]]]].
  rewrite E at 2.
  rewrite fields_blank_prefix, fields_blank_suffix; auto.
Qed.

Lemma strip_falsy_blank (t : string) :
  Py.truthy (Py.strip t) = false -> blank t = true.
Proof.
  intros H. destruct (strip_split t) as [a [b [Ha [Hb E]]]].
  destruct (Py.strip t); try discriminate.
  rewrite E. simpl. rewrite blank_app, Ha, Hb. reflexivity.
Qed.

Lemma fields_filter (ls : list string) :
  flat_map custom_field ls = filter Py.has_eq (map Py.strip ls).
Proof.
  induction ls as [|l ls IH]; simpl; auto.
  rewrite IH. unfold custom_field.
  destruct (Py.has_eq (Py.strip l)) eqn:E.
  - rewrite (has_eq_truthy _ E). reflexivity.
  - rewrite andb_false_r. reflexivity.
Qed.

(** What the second loop of a save writes: every line of the custom
    area, trimmed, that has an ['=']. *)
Lemma custom_fields_lines (f : form) :
  custom_fields f =
  filter Py.has_eq (map Py.strip (Py.split_nl (custom_tags_text f))).
Proof.
  unfold custom_fields, text_get. rewrite <- fields_filter.
  assert (E : flat_map custom_field
                (Py.split_nl (custom_tags_text f ++ String Py.nl "")) =
              flat_map custom_field (Py.split_nl (custom_tags_text f))).
  { apply fields_blank_suffix. reflexivity. }
  destruct (Py.truthy _) eqn:T.
  - rewrite fields_strip. exact E.
  - rewrite <- E. symmetry. apply fields_all_blank.
    apply strip_falsy_blank; auto.
Qed.

(** ** The handlers, step by step *)

Section Handlers.

Variable World : Type.
Variable launch : World -> list string -> World * proc_result.

Lemma subprocess_run_ok (argv : list string) (s : state World) w' out err :
  launch (world s) argv = (w', Exited 0 out err) ->
  subprocess_run World launch argv s =
  (inl out, mkState w' (gui s) (trace s ++ [Run argv])).
Proof. intros H. unfold subprocess_run. rewrite H. reflexivity. Qed.

Lemma check_metaflac_ok (s : state World) w1 out err :
  launch (world s) cmd_version = (w1, Exited 0 out err) ->
  check_metaflac World launch s =
  (inl true, mkState w1 (gui s) (trace s ++ [Run cmd_version])).
Proof.
  intros H. unfold check_metaflac, try_except, bind.
  rewrite (subprocess_run_ok _ _ _ _ _ H). reflexivity.
Qed.

Lemma check_metaflac_fails (s : state World) w1 r :
  launch (world s) cmd_version = (w1, r) -> probe_fails r ->
  check_metaflac World launch s =
  (inl false,
   mkState w1 (gui s)
     (trace s ++ [Run cmd_version; ShowError "Error" (Msg install_text)])).
Proof.
  intros H F. unfold check_metaflac, try_except, bind, subprocess_run.
  rewrite H. destruct r as [rc out err| |msg]; simpl in F.
  - destruct (Z.eqb_spec rc 0); [contradiction|].
    unfold emit; simpl. rewrite <- app_assoc. reflexivity.
  - unfold emit; simpl. rewrite <- app_assoc. reflexivity.
  - contradiction.
Qed.

Lemma cleared_all_empty (es : entries) : all_empty (cleared es).
Proof. unfold all_empty, cleared. apply Forall_map, Forall_forall. auto. Qed.

Lemma cleared_keys (es : entries) : keys (cleared es) = keys es.
Proof. unfold keys, cleared. rewrite map_map. reflexivity. Qed.

(** [save_tags] once a file is selected and the probe has passed. *)
Lemma save_tags_exec (now : string) (s : state World) file w1 out err :
  file_selected (gui s) = Some file ->
  launch (world s) cmd_version = (w1, Exited 0 out err) ->
  save_tags World launch now s =
  let '(w2, ran, e) := exec launch w1 (save_plan file (gui s)) in
  let t := trace s ++ Run cmd_version :: map Run ran in
  match e with
  | None =>
      (inl tt,
       mkState w2
         (set_success (now ++ " - Tags saved successfully!")
            (set_status ("Tags saved to " ++ PosixPath.basename file) (gui s)))
         t)
  | Some (CalledProcessError c rc er) =>
      (inl tt,
       mkState w2 (gui s)
         (t ++ [ShowError "Error"
                  (MsgExn "Failed to save tags: " (CalledProcessError c rc er))]))
  | Some x =>
      (inl tt,
       mkState w2 (gui s)
         (t ++ [ShowError "Error" (MsgExn "Unexpected error: " x)]))
  end.
Proof.
  intros Hf Hv. unfold save_tags, bind, get_gui. rewrite Hf.
  rewrite (check_metaflac_ok _ _ _ _ Hv).
  change (negb true) with false. cbv beta iota.
  unfold try_except, bind. rewrite write_tags_exec.
  generalize (save_plan file (gui s)); intro plan.
  unfold exec_m. cbn [world gui trace].
  destruct (exec launch w1 plan) as [[w2 ran] e].
  rewrite <- app_assoc. cbn [app].
  destruct e as [[c rc er| |m]|]; reflexivity.
Qed.

Lemma save_tags_and_exit_exec (s : state World) file w1 out err :
  file_selected (gui s) = Some file ->
  launch (world s) cmd_version = (w1, Exited 0 out err) ->
  save_tags_and_exit World launch s =
  let '(w2, ran, e) := exec launch w1 (save_plan file (gui s)) in
  let t := trace s ++ Run cmd_version :: map Run ran in
  match e with
  | None => (inl tt, mkState w2 (gui s) (t ++ [Quit]))
  | Some (CalledProcessError c rc er) =>
      (inl tt,
       mkState w2 (gui s)
         (t ++ [ShowError "Error"
                  (MsgExn "Failed to save tags: " (CalledProcessError c rc er))]))
  | Some x =>
      (inl tt,
       mkState w2 (gui s)
         (t ++ [ShowError "Error" (MsgExn "Unexpected error: " x)]))
  end.
Proof.
  intros Hf Hv. unfold save_tags_and_exit, bind, get_gui. rewrite Hf.
  rewrite (check_metaflac_ok _ _ _ _ Hv).
  change (negb true) with false. cbv beta iota.
  unfold try_except, bind. rewrite write_tags_exec.
  generalize (save_plan file (gui s)); intro plan.
  unfold exec_m. cbn [world gui trace].
  destruct (exec launch w1 plan) as [[w2 ran] e].
  rewrite <- app_assoc. cbn [app].
  destruct e as [[c rc er| |m]|]; reflexivity.
Qed.

(** [remove_all_tags] when the user confirms and both launches exit
    zero. *)
Lemma remove_all_tags_ok (s : state World) (file : string) w1 out err w2 o e :
  file_selected (gui s) = Some file ->
  launch (world s) cmd_version = (w1, Exited 0 out err) ->
  launch w1 (cmd_remove_all file) = (w2, Exited 0 o e) ->
  remove_all_tags World launch true s =
  (inl tt,
   mkState w2
     (set_status ("All tags removed from " ++ PosixPath.basename file)
        (clear_form_pure (gui s)))
     (trace s ++
      [AskYesNo "Confirm" (Msg "Remove all tags from this file?") true;
       Run cmd_version; Run (cmd_remove_all file);
       ShowInfo "Success" (Msg "All tags removed successfully!")])).
Proof.
  intros Hf Hv Hr. unfold remove_all_tags, bind, get_gui. rewrite Hf.
  unfold emit. cbv beta iota. change (negb true) with false. cbv iota.
  cbn [world gui trace].
  rewrite (check_metaflac_ok
             (mkState (world s) (gui s)
                (trace s ++
                 [AskYesNo "Confirm" (Msg "Remove all tags from this file?")
                    true])) w1 out err Hv).
  change (negb true) with false. cbv beta iota.
  unfold try_except, bind, clear_form, modify_gui.
  rewrite (subprocess_run_ok (cmd_remove_all file) _ w2 o e) by exact Hr.
  cbn [world gui trace]. rewrite <- !app_assoc. reflexivity.
Qed.

(** A run of [exec] without exception has launched the whole list. *)
Lemma exec_all (w : World) (cmds : list (list string)) w' ran :
  exec launch w cmds = (w', ran, None) -> ran = cmds.
Proof.
  revert w w' ran. induction cmds as [|a cmds IH]; intros w w' ran; simpl.
  - intros H; injection H as _ <-. reflexivity.
  - destruct (launch w a) as [w1 r]. destruct r as [rc out err| |m];
      try discriminate.
    destruct (rc =? 0)%Z; try discriminate.
    destruct (exec launch w1 cmds) as [[w2 ran2] e] eqn:E.
    intros H; injection H as _ <- ->. f_equal. eapply IH; eauto.
Qed.

(** [exec] over a list whose prefix succeeds and whose next vector exits
    non-zero stops there. *)
Lemma exec_stops (w : World) (pre post : list (list string)) a w2 w3 rc out err :
  exec launch w pre = (w2, pre, None) ->
  launch w2 a = (w3, Exited rc out err) -> rc <> 0%Z ->
  exec launch w (pre ++ a :: post) =
  (w3, pre ++ [a], Some (CalledProcessError a rc err)).
Proof.
  revert w. induction pre as [|p pre IH]; intros w Hp Ha Hrc; simpl in *.
  - injection Hp as ->. rewrite Ha.
    destruct (Z.eqb_spec rc 0); [contradiction | reflexivity].
  - destruct (launch w p) as [w1 r]. destruct r as [rc1 o1 e1| |m];
      try discriminate.
    destruct (rc1 =? 0)%Z; try discriminate.
    destruct (exec launch w1 pre) as [[w2' ran] e] eqn:E.
    injection Hp as -> -> ->.
    rewrite (IH w1 E Ha Hrc). reflexivity.
Qed.

End Handlers.

(** ** Reading an export *)

Lemma split_eq1_first (line : string) :
  Py.has_eq line = true ->
  exists k v, Py.split_eq1 line = Some (k, v) /\
              line = (k ++ "=" ++ v)%string /\ Py.has_eq k = false.
Proof.
  induction line as [|c line IH]; simpl; try discriminate.
  destruct (Ascii.eqb_spec c Py.eq_sign) as [->|Hc]; simpl.
  - intros _. exists "", line. auto.
  - intros H. destruct (IH H) as [k [v [E [L Hk]]]].
    exists (String c k), v. rewrite E. simpl.
    destruct (Ascii.eqb_spec c Py.eq_sign); [contradiction|].
    repeat split; auto. f_equal. exact L.
Qed.

Lemma split_eq1_none (line : string) :
  Py.has_eq line = false -> Py.split_eq1 line = None.
Proof.
  induction line as [|c line IH]; simpl; auto.
  destruct (Ascii.eqb c Py.eq_sign); simpl; try discriminate.
  intros H. rewrite (IH H). reflexivity.
Qed.

Lemma entry_set_keys (k v : string) (es : entries) :
  keys (entry_set k v es) = keys es.
Proof.
  induction es as [|[k' v'] es IH]; simpl; auto.
  destruct (k' =? k)%string; simpl; auto. f_equal. exact IH.
Qed.

Lemma entry_get_set (k v tag : string) (es : entries) :
  Py.mem k (keys es) = true ->
  entry_get tag (entry_set k v es) =
  if (k =? tag)%string then v else entry_get tag es.
Proof.
  induction es as [|[k' v'] es IH]; simpl; try discriminate.
  rewrite (String.eqb_sym k k').
  destruct (String.eqb_spec k' k) as [->|Hk]; simpl.
  - intros _. destruct (String.eqb_spec k tag); reflexivity.
  - intros H. rewrite (IH H).
    destruct (String.eqb_spec k' tag) as [->|Ht]; auto.
    destruct (String.eqb_spec k tag); auto. congruence.
Qed.

Lemma mem_In (x : string) (l : list string) : Py.mem x l = true <-> In x l.
Proof.
  induction l as [|y l IH]; simpl.
  - split; [discriminate | contradiction].
  - rewrite orb_true_iff, IH, String.eqb_eq. intuition congruence.
Qed.

(** One step of the loop, by cases on the line. *)
Lemma load_line_cases (es : entries) (acc : list string) (line : string) :
  keys es = common_tags ->
  load_line (es, acc) line =
  if well_known line then (entry_set (key_of line) (value_of line) es, acc)
  else if custom_line line then (es, acc ++ [line])
  else (es, acc).
Proof.
  intros Hk. unfold load_line, well_known, custom_line, has_key, key_of, value_of.
  rewrite Hk. destruct (Py.has_eq line) eqn:E; cbn [andb]; auto.
  destruct (split_eq1_first _ E) as [k [v [S _]]]. rewrite S.
  destruct (Py.mem (Py.upper k) common_tags); reflexivity.
Qed.

Lemma load_lines_fold (lines : list string) (es : entries) (acc : list string) :
  keys es = common_tags ->
  keys (fst (fold_left load_line lines (es, acc))) = common_tags /\
  snd (fold_left load_line lines (es, acc)) = acc ++ filter custom_line lines /\
  forall tag, In tag common_tags ->
    entry_get tag (fst (fold_left load_line lines (es, acc))) =
    last_value tag lines (entry_get tag es).
Proof.
  revert es acc. induction lines as [|l lines IH]; intros es acc Hk.
  - simpl. rewrite app_nil_r. auto.
  - cbn [fold_left]. rewrite (load_line_cases _ _ _ Hk).
    unfold well_known, custom_line, names_tag.
    destruct (Py.has_eq l) eqn:E; cbn [andb negb].
    + destruct (Py.mem (key_of l) common_tags) eqn:M; cbn [negb].
      * destruct (IH (entry_set (key_of l) (value_of l) es) acc) as [K [C G]].
        { rewrite entry_set_keys; auto. }
        split; [exact K|]. split.
        { rewrite C. cbn [filter]. unfold custom_line at 1. rewrite E, M.
          reflexivity. }
        intros tag Ht. rewrite (G tag Ht). cbn [last_value].
        unfold names_tag. rewrite E. cbn [andb].
        rewrite entry_get_set by (rewrite Hk; exact M). reflexivity.
      * destruct (IH es (acc ++ [l])) as [K [C G]]; auto.
        split; [exact K|]. split.
        { rewrite C. cbn [filter]. unfold custom_line at 1. rewrite E, M.
          cbn [andb negb]. rewrite <- app_assoc. reflexivity. }
        intros tag Ht. rewrite (G tag Ht). cbn [last_value].
        unfold names_tag. rewrite E. cbn [andb].
        destruct (String.eqb_spec (key_of l) tag) as [Heq|]; auto.
        rewrite Heq in M. apply mem_In in Ht. congruence.
    + destruct (IH es acc) as [K [C G]]; auto.
      split; [exact K|]. split.
      { rewrite C. cbn [filter]. unfold custom_line at 1. rewrite E.
        reflexivity. }
      intros tag Ht. rewrite (G tag Ht). cbn [last_value].
      unfold names_tag. rewrite E. reflexivity.
Qed.

Lemma entry_get_cleared (tag : string) (es : entries) :
  entry_get tag (cleared es) = "".
Proof.
  induction es as [|[k v] es IH]; simpl; auto.
  destruct (k =? tag)%string; auto.
Qed.

Lemma join_nl_nil_or (custom_tags : list string) (f : form) :
  custom_tags_text f = "" ->
  custom_tags_text
    (match custom_tags with
     | [] => f
     | _ => set_custom_text (Py.join_nl custom_tags) f
     end) = Py.join_nl custom_tags.
Proof. intros H. destruct custom_tags; simpl; auto. Qed.

Section Loading.

Variable World : Type.
Variable launch : World -> list string -> World * proc_result.

(** [load_tags] when the probe and the export both exit zero. *)
Lemma load_tags_ok (s : state World) file w1 out err w2 text err2 :
  file_selected (gui s) = Some file ->
  launch (world s) cmd_version = (w1, Exited 0 out err) ->
  launch w1 (cmd_export file) = (w2, Exited 0 text err2) ->
  load_tags World launch s =
  (inl tt,
   mkState w2 (show_export file text (clear_form_pure (gui s)))
     (trace s ++ [Run cmd_version; Run (cmd_export file)])).
Proof.
  intros Hf Hv He. unfold load_tags, bind, get_gui. rewrite Hf.
  rewrite (check_metaflac_ok _ _ _ _ _ _ Hv).
  change (negb true) with false. cbv beta iota.
  unfold try_except, bind, clear_form, modify_gui. cbn [world gui trace].
  rewrite (subprocess_run_ok World launch _ _ w2 text err2) by exact He.
  cbn [world gui trace]. rewrite <- app_assoc. reflexivity.
Qed.

(** [load_tags] when the probe exits zero and the export raises. *)
Lemma load_tags_export_raises (s : state World) file w1 out err w2 r :
  file_selected (gui s) = Some file ->
  launch (world s) cmd_version = (w1, Exited 0 out err) ->
  launch w1 (cmd_export file) = (w2, r) -> raises r ->
  exists body,
    load_tags World launch s =
    (inl tt,
     mkState w2 (clear_form_pure (gui s))
       (trace s ++ [Run cmd_version; Run (cmd_export file);
                    ShowError "Error" body])).
Proof.
  intros Hf Hv He Hr. unfold load_tags, bind, get_gui. rewrite Hf.
  rewrite (check_metaflac_ok _ _ _ _ _ _ Hv).
  change (negb true) with false. cbv beta iota.
  unfold try_except, bind, clear_form, modify_gui, subprocess_run.
  cbn [world gui trace]. rewrite He.
  destruct r as [rc o e| |m]; cbn in Hr |- *.
  - destruct (Z.eqb_spec rc 0); [contradiction|].
    eexists. unfold emit. cbn [world gui trace].
    rewrite <- !app_assoc. reflexivity.
  - eexists. unfold emit. cbn [world gui trace].
    rewrite <- !app_assoc. reflexivity.
  - eexists. unfold emit. cbn [world gui trace].
    rewrite <- !app_assoc. reflexivity.
Qed.

Lemma show_export_entries (file text : string) (f : form) :
  tag_entries (show_export file text f) = fst (load_lines (tag_entries f) text).
Proof.
  unfold show_export. destruct (load_lines (tag_entries f) text) as [es c].
  destruct c; reflexivity.
Qed.

Lemma show_export_custom (file text : string) (f : form) :
  custom_tags_text f = "" ->
  custom_tags_text (show_export file text f) =
  Py.join_nl (snd (load_lines (tag_entries f) text)).
Proof.
  intros H. unfold show_export.
  destruct (load_lines (tag_entries f) text) as [es c].
  destruct c; simpl; auto.
Qed.

Lemma show_export_file (file text : string) (f : form) :
  current_file (show_export file text f) = current_file f.
Proof.
  unfold show_export. destruct (load_lines (tag_entries f) text) as [es c].
  destruct c; reflexivity.
Qed.

End Loading.

(** ** Lines that come back as they were written *)

Lemma lstrip_idem (s : string) : Py.lstrip (Py.lstrip s) = Py.lstrip s.
Proof.
  induction s as [|c s IH]; simpl; auto.
  destruct (Py.isspace c) eqn:E; auto. simpl. rewrite E. reflexivity.
Qed.

Lemma blank_rstrip (s : string) : blank (Py.rstrip s) = blank s.
Proof.
  induction s as [|c s IH]; auto.
  rewrite rstrip_cons. destruct (blank s) eqn:B; simpl.
  - destruct (Py.isspace c) eqn:E; simpl; rewrite ?E; auto.
  - rewrite IH, B, andb_false_r. reflexivity.
Qed.

Lemma rstrip_idem (s : string) : Py.rstrip (Py.rstrip s) = Py.rstrip s.
Proof.
  induction s as [|c s IH]; auto.
  rewrite rstrip_cons. destruct (blank s && Py.isspace c) eqn:E; auto.
  rewrite rstrip_cons, blank_rstrip, E, IH. reflexivity.
Qed.

Lemma rstrip_fixed_tail (c : ascii) (s : string) :
  Py.rstrip (String c s) = String c s -> Py.rstrip s = s.
Proof.
  rewrite rstrip_cons. destruct (blank s && Py.isspace c); try discriminate.
  intros H; injection H; auto.
Qed.

Lemma rstrip_lstrip_fixed (s : string) :
  Py.rstrip s = s -> Py.rstrip (Py.lstrip s) = Py.lstrip s.
Proof.
  induction s as [|c s IH]; auto.
  intros H. simpl Py.lstrip. destruct (Py.isspace c); auto.
  apply IH. eapply rstrip_fixed_tail; eauto.
Qed.

Lemma strip_lstrip_fixed (s : string) : Py.lstrip (Py.strip s) = Py.strip s.
Proof. apply lstrip_idem. Qed.

Lemma strip_rstrip_fixed (s : string) : Py.rstrip (Py.strip s) = Py.strip s.
Proof. apply rstrip_lstrip_fixed, rstrip_idem. Qed.

Lemma strip_idem (s : string) : Py.strip (Py.strip s) = Py.strip s.
Proof.
  unfold Py.strip at 1. rewrite strip_rstrip_fixed. apply strip_lstrip_fixed.
Qed.

Lemma one_line_app (a b : string) :
  one_line (a ++ b) = one_line a && one_line b.
Proof.
  induction a as [|c a IH]; simpl; auto.
  rewrite IH, andb_assoc. reflexivity.
Qed.

Lemma one_line_strip (s : string) :
  one_line s = true -> one_line (Py.strip s) = true.
Proof.
  destruct (strip_split s) as [a [b [_ [_ E]]]].
  intros H. rewrite E, !one_line_app in H.
  apply andb_prop in H as [_ H]. apply andb_prop in H as [H _]. exact H.
Qed.

Lemma has_eq_app (a b : string) :
  Py.has_eq (a ++ b) = Py.has_eq a || Py.has_eq b.
Proof.
  induction a as [|c a IH]; simpl; auto.
  rewrite IH, orb_assoc. reflexivity.
Qed.

Lemma blank_no_eq (w : string) : blank w = true -> Py.has_eq w = false.
Proof.
  induction w as [|c w IH]; simpl; auto.
  intros H; apply andb_prop in H as [Hc Hw]. rewrite (IH Hw), orb_false_r.
  destruct (Ascii.eqb_spec c Py.eq_sign) as [->|];
    [vm_compute in Hc; discriminate | reflexivity].
Qed.

(** Trimming neither adds nor removes an ['=']. *)
Lemma has_eq_strip (s : string) : Py.has_eq (Py.strip s) = Py.has_eq s.
Proof.
  destruct (strip_split s) as [a [b [Ha [Hb E]]]].
  rewrite E at 2. rewrite !has_eq_app, (blank_no_eq _ Ha), (blank_no_eq _ Hb).
  rewrite orb_false_r. reflexivity.
Qed.

Lemma split_one_line (s : string) :
  one_line s = true -> Py.split_nl s = [s].
Proof.
  unfold Py.split_nl. induction s as [|c s IH]; simpl; auto.
  intros H; apply andb_prop in H as [Hc Hs].
  destruct (Ascii.eqb c Py.nl); try discriminate.
  rewrite (IH Hs). reflexivity.
Qed.

Lemma split_line_nl (a rest : string) :
  one_line a = true ->
  Py.split_nl (a ++ String Py.nl rest) = a :: Py.split_nl rest.
Proof.
  unfold Py.split_nl. induction a as [|c a IH]; simpl.
  - intros _. reflexivity.
  - intros H; apply andb_prop in H as [Hc Ha].
    destruct (Ascii.eqb c Py.nl); try discriminate.
    rewrite (IH Ha). reflexivity.
Qed.

(** The lines of a text have no line break. *)
Lemma split_nl_one_line (s : string) :
  Forall (fun l => one_line l = true) (Py.split_nl s).
Proof.
  unfold Py.split_nl. induction s as [|c s IH]; simpl.
  - repeat constructor.
  - destruct (Ascii.eqb c Py.nl) eqn:E.
    + constructor; auto.
    + destruct (Py.split Py.nl s) as [|h t].
      * repeat constructor. simpl. rewrite E. reflexivity.
      * inversion IH; subst. constructor; auto. simpl. rewrite E. auto.
Qed.

Lemma split_join (ls : list string) :
  ls <> [] -> Forall (fun l => one_line l = true) ls ->
  Py.split_nl (Py.join_nl ls) = ls.
Proof.
  induction ls as [|l ls IH]; [congruence|].
  intros _ H. inversion H as [|? ? Hl Hls]; subst.
  destruct ls as [|l' ls].
  - simpl. apply split_one_line; auto.
  - change (Py.join_nl (l :: l' :: ls))
      with (l ++ String Py.nl (Py.join_nl (l' :: ls)))%string.
    rewrite split_line_nl by assumption. f_equal. apply IH; [discriminate|auto].
Qed.

Lemma lstrip_app_fixed (a b : string) :
  Py.truthy a = true -> Py.lstrip a = a -> Py.lstrip (a ++ b) = (a ++ b)%string.
Proof.
  destruct a as [|c a]; simpl; try discriminate.
  intros _. destruct (Py.isspace c) eqn:E; auto.
  intros H. exfalso.
  assert (L : forall s, String.length (Py.lstrip s) <= String.length s).
  { induction s as [|x s IHs]; simpl; auto.
    destruct (Py.isspace x); simpl; lia. }
  specialize (L a). rewrite H in L. simpl in L. lia.
Qed.

Lemma rstrip_app_fixed (a b : string) :
  Py.truthy b = true -> Py.rstrip b = b -> Py.rstrip (a ++ b) = (a ++ b)%string.
Proof.
  intros Tb Hb. induction a as [|c a IH]; simpl; auto.
  change (match Py.rstrip (a ++ b) with
          | "" => if Py.isspace c then "" else String c ""
          | String a0 s => String c (String a0 s)
          end) with (Py.rstrip (String c (a ++ b))).
  rewrite rstrip_cons, IH.
  assert (B : blank (a ++ b) = false).
  { rewrite blank_app. destruct (blank b) eqn:Bb; [|apply andb_false_r].
    rewrite (rstrip_blank _ Bb) in Hb. subst b. discriminate. }
  rewrite B. reflexivity.
Qed.

Lemma join_tidy (ls : list string) :
  ls <> [] -> Forall tidy ls ->
  Py.truthy (Py.join_nl ls) = true /\
  Py.lstrip (Py.join_nl ls) = Py.join_nl ls /\
  Py.rstrip (Py.join_nl ls) = Py.join_nl ls.
Proof.
  induction ls as [|l ls IH]; [congruence|].
  intros _ H. inversion H as [|? ? [_ [Tl [Ll Rl]]] Hls]; subst.
  destruct ls as [|l' ls].
  - simpl. auto.
  - change (Py.join_nl (l :: l' :: ls))
      with (l ++ String Py.nl (Py.join_nl (l' :: ls)))%string.
    destruct IH as [T [L R]]; [discriminate|assumption|].
    split; [destruct l; [discriminate|reflexivity]|].
    split; [apply lstrip_app_fixed; auto|].
    change (l ++ String Py.nl (Py.join_nl (l' :: ls)))%string
      with (l ++ (String Py.nl "" ++ Py.join_nl (l' :: ls)))%string.
    rewrite <- append_assoc'. apply rstrip_app_fixed; auto.
Qed.

Lemma export_join (cs : list string) :
  cs <> [] ->
  Metaflac.export cs = (Py.join_nl cs ++ String Py.nl "")%string.
Proof.
  induction cs as [|c cs IH]; [congruence|]. intros _.
  destruct cs as [|c' cs].
  - reflexivity.
  - change (Metaflac.export (c :: c' :: cs))
      with (c ++ String Py.nl (Metaflac.export (c' :: cs)))%string.
    rewrite IH by discriminate.
    change (Py.join_nl (c :: c' :: cs))
      with (c ++ String Py.nl (Py.join_nl (c' :: cs)))%string.
    rewrite append_assoc'. reflexivity.
Qed.

(** The tool's export of tidy comments, read back line by line, is the
    list of comments. *)
Lemma export_lines (cs : list string) :
  cs <> [] -> Forall tidy cs ->
  Py.split_nl (Py.strip (Metaflac.export cs)) = cs.
Proof.
  intros Hne Ht. rewrite export_join by assumption.
  rewrite strip_app_blank by reflexivity.
  destruct (join_tidy cs Hne Ht) as [_ [L R]].
  unfold Py.strip. rewrite R, L. apply split_join; auto.
  eapply Forall_impl; [|exact Ht]. intros l [H _]. exact H.
Qed.

(** ** The tag names *)

Lemma common_tags_good : forallb good_tag common_tags = true.
Proof. vm_compute. reflexivity. Qed.

Lemma common_tags_distinct : distinct common_tags = true.
Proof. vm_compute. reflexivity. Qed.

Lemma good_tag_facts (tag : string) :
  good_tag tag = true ->
  one_line tag = true /\ Py.has_eq tag = false /\ Py.upper tag = tag /\
  Py.truthy tag = true /\ Py.lstrip tag = tag.
Proof.
  unfold good_tag. intros H.
  repeat (apply andb_prop in H as [H ?]).
  repeat split; auto.
  - destruct (Py.has_eq tag); auto; discriminate.
  - apply String.eqb_eq; auto.
  - apply String.eqb_eq; auto.
Qed.

Lemma split_eq1_app (k v : string) :
  Py.has_eq k = false ->
  Py.split_eq1 (k ++ "=" ++ v) = Some (k, v).
Proof.
  induction k as [|c k IH]; simpl; auto.
  destruct (Ascii.eqb c Py.eq_sign); simpl; try discriminate.
  intros H. specialize (IH H). simpl in IH. rewrite IH. reflexivity.
Qed.

Lemma key_of_field (tag v : string) :
  good_tag tag = true -> key_of (tag ++ "=" ++ v) = tag.
Proof.
  intros G. destruct (good_tag_facts _ G) as [_ [E [U _]]].
  unfold key_of. rewrite split_eq1_app; auto.
Qed.

Lemma value_of_field (tag v : string) :
  good_tag tag = true -> value_of (tag ++ "=" ++ v) = v.
Proof.
  intros G. destruct (good_tag_facts _ G) as [_ [E _]].
  unfold value_of. rewrite split_eq1_app; auto.
Qed.

Lemma has_eq_field (tag v : string) : Py.has_eq (tag ++ "=" ++ v) = true.
Proof.
  rewrite has_eq_app. simpl. apply orb_true_r.
Qed.

Lemma field_tidy (tag v : string) :
  good_tag tag = true -> one_line v = true -> Py.truthy (Py.strip v) = true ->
  tidy (tag ++ "=" ++ Py.strip v).
Proof.
  intros G Hv T. destruct (good_tag_facts _ G) as [O [_ [_ [Tt L]]]].
  repeat split.
  - rewrite !one_line_app, O. simpl. apply one_line_strip; auto.
  - destruct tag; [discriminate | reflexivity].
  - apply lstrip_app_fixed; auto.
  - rewrite <- append_assoc'. apply rstrip_app_fixed; auto.
    apply strip_rstrip_fixed.
Qed.

(** ** What a save writes, field by field *)

Lemma distinct_cons (x : string) (l : list string) :
  distinct (x :: l) = true -> ~ In x l /\ distinct l = true.
Proof.
  simpl. intros H; apply andb_prop in H as [H1 H2]. split; auto.
  intros I. apply mem_In in I. rewrite I in H1. discriminate.
Qed.

Lemma common_fields_cons (k v : string) (es : entries) :
  common_fields ((k, v) :: es) =
  (if Py.truthy (Py.strip v) then [(k ++ "=" ++ Py.strip v)%string] else [])
  ++ common_fields es.
Proof. reflexivity. Qed.

Lemma common_fields_tidy (es : entries) :
  forallb good_tag (keys es) = true ->
  Forall (fun kv => one_line (snd kv) = true) es ->
  Forall tidy (common_fields es).
Proof.
  induction es as [|[k v] es IH]; intros G H.
  - constructor.
  - cbn [keys map fst forallb] in G. apply andb_prop in G as [Gk G].
    inversion H as [|? ? Hv Hes]; subst. rewrite common_fields_cons.
    apply Forall_app; split; auto.
    destruct (Py.truthy (Py.strip v)) eqn:T; constructor; auto.
    apply field_tidy; auto.
Qed.

Lemma common_fields_well_known (es : entries) :
  keys es = common_tags ->
  Forall (fun l => well_known l = true) (common_fields es).
Proof.
  intros K. pose proof common_tags_good as G. rewrite <- K in G.
  assert (S : forall k, In k (keys es) -> In k common_tags)
    by (rewrite K; auto).
  clear K. induction es as [|[k v] es IH].
  - constructor.
  - cbn [keys map fst forallb] in G, S. apply andb_prop in G as [Gk G].
    rewrite common_fields_cons.
    apply Forall_app; split.
    + destruct (Py.truthy (Py.strip v)); constructor; auto.
      unfold well_known. rewrite has_eq_field, key_of_field by assumption.
      apply mem_In, S. left; reflexivity.
    + apply IH; auto. intros k' Hk'. apply S. right; exact Hk'.
Qed.

Lemma custom_fields_tidy (f : form) : Forall tidy (custom_fields f).
Proof.
  rewrite custom_fields_lines. apply Forall_forall. intros l Hl.
  apply filter_In in Hl as [Hin He].
  apply in_map_iff in Hin as [x [<- Hx]].
  pose proof (split_nl_one_line (custom_tags_text f)) as O.
  rewrite Forall_forall in O. repeat split.
  - apply one_line_strip, O, Hx.
  - apply has_eq_truthy; auto.
  - apply strip_lstrip_fixed.
  - apply strip_rstrip_fixed.
Qed.

Lemma last_value_app (tag : string) (a b : list string) (d : string) :
  last_value tag (a ++ b) d = last_value tag b (last_value tag a d).
Proof. revert d. induction a as [|l a IH]; intro d; simpl; auto. Qed.

Lemma last_value_unnamed (tag : string) (ls : list string) (d : string) :
  Forall (fun l => names_tag tag l = false) ls -> last_value tag ls d = d.
Proof.
  induction 1 as [|l ls Hl _ IH]; simpl; auto. rewrite Hl. exact IH.
Qed.

Lemma names_tag_field (tag k v : string) :
  good_tag k = true -> names_tag tag (k ++ "=" ++ v) = (k =? tag)%string.
Proof.
  intros G. unfold names_tag. rewrite has_eq_field, key_of_field; auto.
Qed.

(** After the lines of the first loop, a field holds its trimmed Entry. *)
Lemma last_value_common (es : entries) (tag d : string) :
  distinct (keys es) = true -> forallb good_tag (keys es) = true ->
  last_value tag (common_fields es) d =
  if Py.mem tag (keys es) then
    if Py.truthy (Py.strip (entry_get tag es)) then Py.strip (entry_get tag es)
    else d
  else d.
Proof.
  revert d. induction es as [|[k v] es IH]; intros d D G; auto.
  change (keys ((k, v) :: es)) with (k :: keys es) in *.
  apply distinct_cons in D as [Nk D].
  cbn [forallb] in G. apply andb_prop in G as [Gk G].
  rewrite common_fields_cons.
  rewrite last_value_app, (IH _ D G). cbn [Py.mem entry_get].
  rewrite (String.eqb_sym tag k).
  destruct (String.eqb_spec k tag) as [->|Hk]; cbn [orb].
  - assert (M : Py.mem tag (keys es) = false).
    { destruct (Py.mem tag (keys es)) eqn:M; auto.
      apply mem_In in M. contradiction. }
    rewrite M. destruct (Py.truthy (Py.strip v)); cbn [last_value]; auto.
    rewrite names_tag_field, String.eqb_refl by assumption.
    rewrite value_of_field by assumption. reflexivity.
  - assert (L : last_value tag
                  (if Py.truthy (Py.strip v)
                   then [(k ++ "=" ++ Py.strip v)%string] else []) d = d).
    { destruct (Py.truthy (Py.strip v)); cbn [last_value]; auto.
      rewrite names_tag_field by assumption.
      destruct (String.eqb_spec k tag); [contradiction | reflexivity]. }
    rewrite L. reflexivity.
Qed.

Lemma trimmed_keys (es : entries) : keys (trimmed es) = keys es.
Proof. unfold keys, trimmed. rewrite map_map. reflexivity. Qed.

Lemma entry_get_trimmed (tag : string) (es : entries) :
  entry_get tag (trimmed es) = Py.strip (entry_get tag es).
Proof.
  induction es as [|[k v] es IH]; simpl; auto.
  destruct (k =? tag)%string; auto.
Qed.

(** Two forms with the same distinct keys and the same texts under them
    are the same. *)
Lemma entries_ext (a b : entries) :
  keys a = keys b -> distinct (keys a) = true ->
  (forall tag, In tag (keys a) -> entry_get tag a = entry_get tag b) ->
  a = b.
Proof.
  revert b. induction a as [|[k v] a IH]; intros [|[k' v'] b] K D H;
    try discriminate; auto.
  change (keys ((k, v) :: a)) with (k :: keys a) in *.
  change (keys ((k', v') :: b)) with (k' :: keys b) in *.
  injection K as <- K. apply distinct_cons in D as [Nk D].
  f_equal.
  - f_equal. specialize (H k (or_introl eq_refl)). simpl in H.
    rewrite String.eqb_refl in H. exact H.
  - apply IH; auto. intros tag Ht.
    specialize (H tag (or_intror Ht)). simpl in H.
    destruct (String.eqb_spec k tag) as [->|]; [contradiction | exact H].
Qed.

(** ** The modelled tool *)

Section Tool.

Variable arrange : list string -> list string.
Variable accepts : string -> bool.

Lemma tool_version (d : Metaflac.disk) :
  Metaflac.installed d = true ->
  Metaflac.run arrange accepts d cmd_version = (d, Exited 0 "" "").
Proof. intros H. unfold Metaflac.run. rewrite H. reflexivity. Qed.


Lemma tool_remove_all (d : Metaflac.disk) :
  Metaflac.installed d = true ->
  Metaflac.run arrange accepts d (cmd_remove_all (Metaflac.flac_path d)) =
  (Metaflac.mkDisk true (Metaflac.flac_path d) [], Exited 0 "" "").
Proof.
  intros H. unfold Metaflac.run, cmd_remove_all. rewrite H, String.eqb_refl.
  reflexivity.
Qed.

Lemma tool_set_tag (d : Metaflac.disk) (field : string) :
  Metaflac.installed d = true -> accepts field = true ->
  Metaflac.run arrange accepts d (cmd_set_tag field (Metaflac.flac_path d)) =
  (Metaflac.mkDisk true (Metaflac.flac_path d) (Metaflac.comments d ++ [field]),
   Exited 0 "" "").
Proof.
  intros H A. unfold Metaflac.run, cmd_set_tag. rewrite H, String.eqb_refl.
  cbn. rewrite A. reflexivity.
Qed.

Lemma tool_set_tags (fields : list string) (d : Metaflac.disk) :
  Metaflac.installed d = true ->
  Forall (fun field => accepts field = true) fields ->
  exec (Metaflac.run arrange accepts) d
    (map (fun field => cmd_set_tag field (Metaflac.flac_path d)) fields) =
  (Metaflac.mkDisk true (Metaflac.flac_path d) (Metaflac.comments d ++ fields),
   map (fun field => cmd_set_tag field (Metaflac.flac_path d)) fields, None).
Proof.
  revert d. induction fields as [|x fields IH]; intros d H A.
  - simpl. rewrite app_nil_r. destruct d; simpl in *. subst. reflexivity.
  - inversion A as [|? ? Ax Af]; subst. cbn [map exec].
    rewrite tool_set_tag by assumption. cbn [Z.eqb].
    specialize (IH (Metaflac.mkDisk true (Metaflac.flac_path d)
                      (Metaflac.comments d ++ [x])) eq_refl Af).
    cbn [Metaflac.flac_path Metaflac.comments] in IH. rewrite IH.
    rewrite <- app_assoc. reflexivity.
Qed.

(** On the modelled tool a save whose fields are all accepted leaves
    exactly its fields in the file. *)
Lemma tool_save_plan (d : Metaflac.disk) (f : form) :
  Metaflac.installed d = true ->
  Forall (fun field => accepts field = true)
    (common_fields (tag_entries f) ++ custom_fields f) ->
  exec (Metaflac.run arrange accepts) d (save_plan (Metaflac.flac_path d) f) =
  (Metaflac.mkDisk true (Metaflac.flac_path d)
     (common_fields (tag_entries f) ++ custom_fields f),
   save_plan (Metaflac.flac_path d) f, None).
Proof.
  intros H A. unfold save_plan. cbn [exec].
  rewrite tool_remove_all by assumption. cbn [Z.eqb].
  pose proof (tool_set_tags _
    (Metaflac.mkDisk true (Metaflac.flac_path d) []) eq_refl A) as E.
  cbn [Metaflac.flac_path Metaflac.comments app] in E. rewrite E. reflexivity.
Qed.

End Tool.

(** ** Reading back what was written *)

Lemma load_line_empty (acc : entries * list string) : load_line acc "" = acc.
Proof. destruct acc. reflexivity. Qed.

(** Reading the export of tidy comments is the loop over the comments. *)
Lemma load_lines_export (es : entries) (cs : list string) :
  Forall tidy cs ->
  load_lines es (Metaflac.export cs) = fold_left load_line cs (es, []).
Proof.
  intros T. unfold load_lines. destruct cs as [|c cs].
  - reflexivity.
  - rewrite export_lines; auto. discriminate.
Qed.

Lemma filter_custom_well_known (ls : list string) :
  Forall (fun l => well_known l = true) ls -> filter custom_line ls = [].
Proof.
  induction 1 as [|l ls Hl _ IH]; auto.
  cbn [filter]. unfold custom_line at 1. unfold well_known in Hl.
  apply andb_prop in Hl as [H1 H2]. rewrite H1, H2. exact IH.
Qed.

Lemma filter_custom_all (ls : list string) :
  Forall (fun l => custom_line l = true) ls -> filter custom_line ls = ls.
Proof.
  induction 1 as [|l ls Hl _ IH]; auto.
  cbn [filter]. rewrite Hl, IH. reflexivity.
Qed.

(** The form read back from a file that holds the fields of a save. *)
Lemma load_written (f : form) :
  keys (tag_entries f) = common_tags ->
  Forall (fun kv => one_line (snd kv) = true) (tag_entries f) ->
  Forall (fun l => custom_line l = true) (custom_fields f) ->
  load_lines (cleared (tag_entries f))
    (Metaflac.export (common_fields (tag_entries f) ++ custom_fields f)) =
  (trimmed (tag_entries f), custom_fields f).
Proof.
  intros K O C.
  assert (G : forallb good_tag (keys (tag_entries f)) = true)
    by (rewrite K; apply common_tags_good).
  assert (D : distinct (keys (tag_entries f)) = true)
    by (rewrite K; apply common_tags_distinct).
  rewrite load_lines_export.
  2:{ apply Forall_app; split;
        [apply common_fields_tidy; auto | apply custom_fields_tidy]. }
  destruct (load_lines_fold
              (common_fields (tag_entries f) ++ custom_fields f)
              (cleared (tag_entries f)) [])
    as [K' [C' G']].
  { rewrite cleared_keys; auto. }
  destruct (fold_left load_line _ _) as [es' custom'] eqn:E.
  cbn [fst snd] in *. f_equal.
  - apply entries_ext.
    + rewrite trimmed_keys, K, K'. reflexivity.
    + rewrite K'. apply common_tags_distinct.
    + intros tag Ht. rewrite K' in Ht. rewrite (G' tag Ht).
      rewrite entry_get_cleared, last_value_app, entry_get_trimmed.
      rewrite last_value_unnamed.
      * rewrite last_value_common by assumption.
        rewrite K. apply mem_In in Ht. rewrite Ht.
        destruct (Py.strip (entry_get tag (tag_entries f))); reflexivity.
      * eapply Forall_impl; [|exact C]. intros l Hl.
        unfold custom_line in Hl. unfold names_tag.
        destruct (Py.has_eq l); auto. cbn [andb] in *.
        destruct (String.eqb_spec (key_of l) tag) as [Heq|]; auto.
        apply mem_In in Ht. rewrite Heq, Ht in Hl. discriminate.
  - rewrite C'. cbn [app]. rewrite filter_app.
    rewrite (filter_custom_well_known _ (common_fields_well_known _ K)).
    rewrite (filter_custom_all _ C). reflexivity.
Qed.

(** ** The launches of a handler *)

Lemma runs_app (a b : list event) : runs (a ++ b) = runs a ++ runs b.
Proof.
  induction a as [|e a IH]; simpl; auto.
  destruct e; simpl; rewrite IH; reflexivity.
Qed.

Lemma runs_map_Run (l : list (list string)) : runs (map Run l) = l.
Proof. induction l as [|a l IH]; simpl; congruence. Qed.

Lemma entry_get_other (k v tag : string) (es : entries) :
  k <> tag -> entry_get tag ((k, v) :: es) = entry_get tag es.
Proof.
  intros H. simpl. destruct (String.eqb_spec k tag); [contradiction|reflexivity].
Qed.

Lemma flat_map_agree {A B} (f g : A -> list B) (l : list A) :
  (forall x, In x l -> f x = g x) -> flat_map f l = flat_map g l.
Proof.
  induction l as [|x l IH]; intros H; simpl; auto.
  rewrite (H x (or_introl eq_refl)), IH; auto.
  intros y Hy. apply H. right; exact Hy.
Qed.

(** The first loop, tag by tag in the order of the keys. *)
Lemma common_fields_by_tag (es : entries) :
  distinct (keys es) = true ->
  common_fields es = flat_map (written_for es) (keys es).
Proof.
  induction es as [|[k v] es IH]; intros D; auto.
  change (keys ((k, v) :: es)) with (k :: keys es) in *.
  apply distinct_cons in D as [Nk D].
  rewrite common_fields_cons. cbn [flat_map]. f_equal.
  - unfold written_for. simpl. rewrite String.eqb_refl. reflexivity.
  - rewrite (IH D). apply flat_map_agree. intros tag Ht.
    unfold written_for. rewrite entry_get_other; auto.
    intros ->. contradiction.
Qed.

Lemma filter_or_length {A} (p q : A -> bool) (l : list A) :
  List.length (filter (fun x => p x || q x) l)
  <= List.length (filter p l) + List.length (filter q l).
Proof.
  induction l as [|x l IH]; simpl; auto.
  destruct (p x), (q x); simpl; lia.
Qed.

Lemma filter_key_length (b : bool) (k : string) (l : list string) :
  distinct l = true ->
  List.length (filter (fun t => b && (k =? t)%string) l)
  <= if b && Py.mem k l then 1 else 0.
Proof.
  destruct b; cbn [andb].
  2:{ intros _. induction l; simpl; auto. }
  induction l as [|x l IH]; intros D; simpl; auto.
  apply distinct_cons in D as [Nx D]. specialize (IH D).
  destruct (String.eqb_spec k x) as [->|]; simpl.
  - assert (M : Py.mem x l = false).
    { destruct (Py.mem x l) eqn:M; auto. apply mem_In in M. contradiction. }
    rewrite M in IH. lia.
  - exact IH.
Qed.

Lemma named_bound (T : list string) (lines : list string) :
  distinct T = true ->
  List.length (filter (fun tag => existsb (names_tag tag) lines) T)
  <= List.length
       (filter (fun l => Py.has_eq l && Py.mem (key_of l) T) lines).
Proof.
  intros D. induction lines as [|l lines IH].
  - cbn [existsb filter]. clear D. induction T; cbn [filter]; auto.
  - cbn [existsb filter].
    eapply Nat.le_trans; [apply filter_or_length|].
    pose proof (filter_key_length (Py.has_eq l) (key_of l) T D) as B.
    unfold names_tag at 1.
    destruct (Py.has_eq l && Py.mem (key_of l) T); cbn [List.length]; lia.
Qed.

(** No more fields are named than there are lines with a known key. *)
Lemma named_tags_bound (lines : list string) :
  List.length (named_tags lines) <= List.length (filter well_known lines).
Proof. exact (named_bound common_tags lines common_tags_distinct). Qed.

Lemma custom_count_gen (T : list string) (lines : list string) :
  List.length
    (filter (fun l => Py.has_eq l && negb (Py.mem (key_of l) T)) lines) =
  List.length (filter Py.has_eq lines)
  - List.length (filter (fun l => Py.has_eq l && Py.mem (key_of l) T) lines).
Proof.
  assert (B : forall ls,
            List.length
              (filter (fun l => Py.has_eq l && Py.mem (key_of l) T) ls)
            <= List.length (filter Py.has_eq ls)).
  { induction ls as [|x ls IH]; cbn [filter List.length]; auto.
    destruct (Py.has_eq x); cbn [andb List.length]; [|lia].
    destruct (Py.mem (key_of x) T); cbn [List.length]; lia. }
  induction lines as [|l lines IH]; cbn [filter]; auto.
  specialize (B lines).
  destruct (Py.has_eq l); cbn [andb negb List.length]; auto.
  destruct (Py.mem (key_of l) T); cbn [negb List.length]; lia.
Qed.

Lemma custom_count (lines : list string) :
  List.length (filter custom_line lines) =
  List.length (filter Py.has_eq lines) - List.length (filter well_known lines).
Proof. exact (custom_count_gen common_tags lines). Qed.

Lemma last_value_named (tag : string) (lines : list string) (d : string) :
  existsb (names_tag tag) lines = false -> last_value tag lines d = d.
Proof.
  revert d. induction lines as [|l lines IH]; intros d; simpl; auto.
  intros H. apply orb_false_elim in H as [H1 H2]. rewrite H1. auto.
Qed.

(** * The claims *)

Section Claims.

Variable World : Type.
Variable launch : World -> list string -> World * proc_result.


(** C4. When the removal and the set-tags before it have succeeded and a
    set-tag exits non-zero, [save_tags] stops there: the set-tags that
    were to follow are not launched and nothing is launched to undo what
    was written; the world is the one the failed launch left, and the
    user gets the error dialog. *)
Theorem save_stops_at_failure (s : state World) (now file : string)
  (pre post : list (list string)) (a : list string) w1 out err w2 w3 rc o e :
  file_selected (gui s) = Some file ->
  launch (world s) cmd_version = (w1, Exited 0 out err) ->
  save_plan file (gui s) = cmd_remove_all file :: pre ++ a :: post ->
  exec launch w1 (cmd_remove_all file :: pre) =
    (w2, cmd_remove_all file :: pre, None) ->
  launch w2 a = (w3, Exited rc o e) -> rc <> 0%Z ->
  save_tags World launch now s =
  (inl tt,
   mkState w3 (gui s)
     (trace s ++ Run cmd_version :: map Run (cmd_remove_all file :: pre) ++
      [Run a;
       ShowError "Error"
         (MsgExn "Failed to save tags: " (CalledProcessError a rc e))])).
Proof.
  intros Hf Hv Hp Hpre Ha Hrc.
  rewrite (save_tags_exec _ _ _ _ _ _ _ _ Hf Hv), Hp.
  change (cmd_remove_all file :: pre ++ a :: post)
    with ((cmd_remove_all file :: pre) ++ a :: post).
  rewrite (exec_stops _ _ _ _ _ _ _ _ _ _ _ Hpre Ha Hrc).
  cbv beta iota zeta. f_equal. f_equal.
  rewrite map_app. cbn [map]. rewrite <- !app_assoc. cbn [app].
  rewrite <- app_assoc. reflexivity.
Qed.

(** C6. When the version probe finds no executable or exits non-zero,
    [check_metaflac] returns [False], and [save_tags],
    [save_tags_and_exit] and [remove_all_tags] leave the form as it was
    and launch at most the probe: no remove-all-tags and no set-tag. *)
Theorem unavailable_blocks_mutation (s : state World) (now : string) (answer : bool) w1 r :
  launch (world s) cmd_version = (w1, r) -> probe_fails r ->
  fst (check_metaflac World launch s) = inl false /\
  forall s',
    In s' [snd (save_tags World launch now s);
           snd (save_tags_and_exit World launch s);
           snd (remove_all_tags World launch answer s)] ->
    gui s' = gui s /\
    exists evs, trace s' = trace s ++ evs /\
                forall argv, In (Run argv) evs -> argv = cmd_version.
Proof.
  intros Hv Hr. pose proof (check_metaflac_fails _ _ _ _ _ Hv Hr) as C.
  split; [rewrite C; reflexivity|].
  assert (P : forall argv,
            In (Run argv) [Run cmd_version; ShowError "Error" (Msg install_text)]
            -> argv = cmd_version).
  { intros argv [H|[H|[]]]; [injection H; auto | discriminate]. }
  assert (W : forall argv,
            In (Run argv)
              [ShowWarning "Warning" (Msg "Please select a FLAC file first")]
            -> argv = cmd_version).
  { intros argv [H|[]]; discriminate. }
  intros s' [<-|[<-|[<-|[]]]].
  - unfold save_tags, bind, get_gui.
    destruct (file_selected (gui s)) as [file|].
    + rewrite C. cbn. split; [reflexivity|]. eexists. split; [reflexivity|].
      exact P.
    + cbn. split; [reflexivity|]. eexists. split; [reflexivity|]. exact W.
  - unfold save_tags_and_exit, bind, get_gui.
    destruct (file_selected (gui s)) as [file|].
    + rewrite C. cbn. split; [reflexivity|]. eexists. split; [reflexivity|].
      exact P.
    + cbn. split; [reflexivity|]. eexists. split; [reflexivity|]. exact W.
  - unfold remove_all_tags, bind, get_gui.
    destruct (file_selected (gui s)) as [file|].
    2:{ cbn. split; [reflexivity|]. eexists. split; [reflexivity|]. exact W. }
    unfold emit. cbv beta iota. destruct answer; cbn [negb].
    + pose proof (check_metaflac_fails World launch
                    (mkState (world s) (gui s)
                       (trace s ++
                        [AskYesNo "Confirm"
                           (Msg "Remove all tags from this file?") true]))
                    w1 r Hv Hr) as C2.
      rewrite C2. cbn. split; [reflexivity|].
      rewrite <- app_assoc. eexists. split; [reflexivity|].
      intros argv [H|[H|[H|[]]]]; try discriminate. injection H; auto.
    + cbn. split; [reflexivity|]. eexists. split; [reflexivity|].
      intros argv [H|[]]; discriminate.
Qed.

(** C8. When the user confirms, the probe passes and remove-all-tags
    exits zero, [remove_all_tags] leaves every Entry and the custom area
    empty, and has launched the probe and the removal only: the file is
    not read again. *)
Theorem remove_all_resets_form (s : state World) (file : string) w1 out err w2 o e :
  file_selected (gui s) = Some file ->
  launch (world s) cmd_version = (w1, Exited 0 out err) ->
  launch w1 (cmd_remove_all file) = (w2, Exited 0 o e) ->
  let s' := snd (remove_all_tags World launch true s) in
  all_empty (tag_entries (gui s')) /\
  keys (tag_entries (gui s')) = keys (tag_entries (gui s)) /\
  custom_tags_text (gui s') = "" /\
  world s' = w2 /\
  runs (trace s') = runs (trace s) ++ [cmd_version; cmd_remove_all file].
Proof.
  intros Hf Hv Hr. cbv zeta.
  rewrite (remove_all_tags_ok World launch s file w1 out err w2 o e Hf Hv Hr).
  cbn [snd gui world trace]. repeat split.
  - apply cleared_all_empty.
  - apply cleared_keys.
  - rewrite runs_app. reflexivity.
Qed.

(** C9. When the probe passes and the export raises (a non-zero exit, a
    missing executable or any other failure to launch), [load_tags]
    returns with every Entry and the custom area empty: the form was
    cleared before the launch and is not put back. *)
Theorem load_failure_leaves_form_empty (s : state World) (file : string) w1 out err w2 r :
  file_selected (gui s) = Some file ->
  launch (world s) cmd_version = (w1, Exited 0 out err) ->
  launch w1 (cmd_export file) = (w2, r) -> raises r ->
  let res := load_tags World launch s in
  fst res = inl tt /\
  all_empty (tag_entries (gui (snd res))) /\
  custom_tags_text (gui (snd res)) = "" /\
  exists body,
    trace (snd res) =
    trace s ++ [Run cmd_version; Run (cmd_export file); ShowError "Error" body].
Proof.
  intros Hf Hv He Hr.
  destruct (load_tags_export_raises _ _ _ _ _ _ _ _ _ Hf Hv He Hr) as [body E].
  cbv zeta. rewrite E. cbn. repeat split.
  - apply cleared_all_empty.
  - exists body. reflexivity.
Qed.

End Claims.

Section LoadClaims.

Variable World : Type.
Variable launch : World -> list string -> World * proc_result.


(** C5, as amended. With N the number of lines of the trimmed export
    that have an ['='] and K the number of those whose key is well
    known: the custom lines are the other N - K, in order; the fields
    that are named are at most K, one per distinct key; a named field
    holds the value of the last line that names it and a field that no
    line names is empty. *)
Theorem load_counts (s : state World) (file : string) w1 out err w2 text err2 :
  file_selected (gui s) = Some file ->
  keys (tag_entries (gui s)) = common_tags ->
  launch (world s) cmd_version = (w1, Exited 0 out err) ->
  launch w1 (cmd_export file) = (w2, Exited 0 text err2) ->
  let lines := Py.split_nl (Py.strip text) in
  let N := List.length (filter Py.has_eq lines) in
  let K := List.length (filter well_known lines) in
  let g' := gui (snd (load_tags World launch s)) in
  let custom_tags := snd (load_lines (cleared (tag_entries (gui s))) text) in
  custom_tags = filter custom_line lines /\
  List.length custom_tags = N - K /\
  custom_tags_text g' = Py.join_nl custom_tags /\
  List.length (named_tags lines) <= K /\
  forall tag, In tag common_tags ->
    entry_get tag (tag_entries g') =
    if existsb (names_tag tag) lines then last_value tag lines "" else "".
Proof.
  intros Hf Hk Hv He. cbv zeta.
  rewrite (load_tags_ok _ _ _ _ _ _ _ _ _ _ Hf Hv He). cbn [snd gui].
  rewrite show_export_entries, show_export_custom by reflexivity.
  unfold load_lines. cbn [clear_form_pure set_success set_custom_text
                            set_entries tag_entries].
  destruct (load_lines_fold (Py.split_nl (Py.strip text))
              (cleared (tag_entries (gui s))) [])
    as [K [C G]].
  { rewrite cleared_keys; exact Hk. }
  cbn [app] in C. rewrite C.
  split; [reflexivity|]. split; [apply custom_count|].
  split; [reflexivity|]. split; [apply named_tags_bound|].
  intros tag Ht. rewrite (G tag Ht), entry_get_cleared.
  destruct (existsb (names_tag tag) (Py.split_nl (Py.strip text))) eqn:E; auto.
  apply last_value_named; auto.
Qed.




End LoadClaims.

(** ** Text mode and the order of the export *)

























(** ** A save and the load that follows, on the modelled tool *)

Section RoundTrip.

Variable arrange : list string -> list string.
Variable accepts : string -> bool.


Lemma save_on_tool (d : Metaflac.disk) (g : form) (now : string)
  (t : list event) :
  Metaflac.installed d = true ->
  file_selected g = Some (Metaflac.flac_path d) ->
  Forall (fun field => accepts field = true)
    (common_fields (tag_entries g) ++ custom_fields g) ->
  save_tags Metaflac.disk (Metaflac.run arrange accepts) now (mkState d g t) =
  (inl tt,
   mkState
     (Metaflac.mkDisk true (Metaflac.flac_path d)
        (common_fields (tag_entries g) ++ custom_fields g))
     (set_success (now ++ " - Tags saved successfully!")
        (set_status
           ("Tags saved to " ++ PosixPath.basename (Metaflac.flac_path d)) g))
     (t ++ Run cmd_version :: map Run (save_plan (Metaflac.flac_path d) g))).
Proof.
  intros Hi Hf Ha.
  rewrite (save_tags_exec Metaflac.disk (Metaflac.run arrange accepts) now (mkState d g t)
             (Metaflac.flac_path d) d "" "" Hf (tool_version arrange accepts d Hi)).
  cbn [gui trace]. rewrite (tool_save_plan arrange accepts d g Hi Ha).
  reflexivity.
Qed.



End RoundTrip.


Section ToolClaims.

Variable arrange : list string -> list string.
Variable accepts : string -> bool.



End ToolClaims.

(** ** Start-up *)

Lemma startswith_slashes (n : nat) (s : string) :
  Py.startswith (PosixPath.slashes (S n) ++ s) "/" = true.
Proof. reflexivity. Qed.

Lemma normpath_absolute (p : string) :
  PosixPath.isabs p = true -> PosixPath.isabs (PosixPath.normpath p) = true.
Proof.
  unfold PosixPath.isabs, PosixPath.normpath. intros H.
  destruct p as [|c p]; [discriminate|].
  cbn [String.eqb]. rewrite H.
  destruct (Py.startswith (String c p) "//"
            && negb (Py.startswith (String c p) "///")); reflexivity.
Qed.

Lemma startswith_app (a b p : string) :
  Py.startswith a p = true -> Py.startswith (a ++ b) p = true.
Proof.
  revert a. induction p as [|x p IH]; intros a; [destruct a; auto|].
  destruct a as [|y a]; simpl; try discriminate.
  intros H. apply andb_prop in H as [H1 H2]. rewrite H1. simpl. auto.
Qed.

Lemma abspath_absolute (cwd p : string) :
  PosixPath.isabs cwd = true ->
  PosixPath.isabs (PosixPath.abspath cwd p) = true.
Proof.
  intros H. unfold PosixPath.abspath. apply normpath_absolute.
  destruct (PosixPath.isabs p) eqn:E; auto.
  unfold PosixPath.join. unfold PosixPath.isabs in E. rewrite E.
  unfold PosixPath.isabs in *.
  destruct (negb (Py.truthy cwd) || Py.endswith cwd "/");
    apply startswith_app; auto.
Qed.

(** C7, as amended. For a file argument that is not the empty string:
    when the path does not exist or does not end in [.flac] (letter case
    apart), [main] opens no window and exits with status 1 after
    printing the error line on standard output, nothing on standard
    error; when the path exists and has the extension, the window opens
    on [os.path.abspath] of it, which is absolute when the current
    directory is. *)
Theorem main_validates (path_exists : string -> bool) (cwd file : string) :
  Py.truthy file = true ->
  (path_exists file && Py.endswith (Py.lower file) ".flac" = false ->
   exists line,
     main path_exists cwd (Some file) = Exit 1 line "" /\
     Py.truthy line = true) /\
  (path_exists file && Py.endswith (Py.lower file) ".flac" = true ->
   main path_exists cwd (Some file) =
     Window (Some (PosixPath.abspath cwd file)) /\
   (PosixPath.isabs cwd = true ->
    PosixPath.isabs (PosixPath.abspath cwd file) = true)).
Proof.
  intros T. unfold main. rewrite T. split; intros H; rewrite H.
  - eexists. split; reflexivity.
  - split; [reflexivity | apply abspath_absolute].
Qed.

(** * The claims at concrete inputs *)

Lemma Forall_of_forallb {A} (p : A -> bool) (l : list A) :
  forallb p l = true -> Forall (fun x => p x = true) l.
Proof.
  intros H. apply Forall_forall. intros x Hx.
  exact (proj1 (forallb_forall p l) H x Hx).
Qed.







(** C4 where the tool refuses the first custom line: the title is
    written, [FOO=bar] is never launched, and the file is left with the
    title alone. *)
Lemma save_stops_at_failure_witness :
  let s' := snd (save_tags Metaflac.disk demo_tool demo_now
                   (mkState scenario_disk refused_form [])) in
  runs (trace s') =
    [cmd_version; cmd_remove_all demo_path;
     cmd_set_tag "TITLE=Song" demo_path; cmd_set_tag "=bad" demo_path] /\
  Metaflac.comments (world s') = ["TITLE=Song"] /\
  gui s' = refused_form.
Proof.
  pose proof (save_stops_at_failure Metaflac.disk demo_tool
                (mkState scenario_disk refused_form []) demo_now demo_path
                [cmd_set_tag "TITLE=Song" demo_path]
                [cmd_set_tag "FOO=bar" demo_path]
                (cmd_set_tag "=bad" demo_path)
                scenario_disk "" "" (demo_disk ["TITLE=Song"])
                (demo_disk ["TITLE=Song"]) 1%Z "" ""
                eq_refl eq_refl eq_refl eq_refl eq_refl
                (fun H : 1%Z = 0%Z =>
                   eq_ind 1%Z (fun z => match z with 0%Z => False | _ => True end)
                     I 0%Z H)) as E.
  cbv zeta. rewrite E. repeat split.
Defined.

(** C5 at the scenario: three lines with ['='], two with a well-known
    key, one custom line. *)
Lemma load_counts_witness :
  let text := Metaflac.export (Metaflac.comments scenario_disk) in
  let lines := Py.split_nl (Py.strip text) in
  List.length (filter Py.has_eq lines) = 3 /\
  List.length (filter well_known lines) = 2 /\
  snd (load_lines (cleared setup_entries) text) = ["XCUSTOM=1"] /\
  List.length (named_tags lines) <= 2.
Proof.
  pose proof (load_counts Metaflac.disk demo_tool
                (mkState scenario_disk (init_form (Some demo_path)) [])
                demo_path scenario_disk "" "" scenario_disk
                (Metaflac.export (Metaflac.comments scenario_disk)) ""
                eq_refl eq_refl eq_refl eq_refl) as [C [_ [_ [B _]]]].
  cbv zeta. split; [reflexivity|]. split; [reflexivity|].
  split; [exact C | exact B].
Defined.

(** C5 as stated fails: of the two lines [TITLE=a] and [TITLE=b] both
    have a well-known key (N = 2, K = 2), one key is distinct, and the
    load populates one field, with the second value, and no custom
    line. *)
Lemma load_duplicate_key :
  let text := Metaflac.export ["TITLE=a"; "TITLE=b"] in
  let lines := Py.split_nl (Py.strip text) in
  let g' := gui (snd (load_tags Metaflac.disk demo_tool
                        (mkState (demo_disk ["TITLE=a"; "TITLE=b"])
                           (init_form (Some demo_path)) []))) in
  List.length (filter Py.has_eq lines) = 2 /\
  List.length (filter well_known lines) = 2 /\
  List.length (named_tags lines) = 1 /\
  populated (tag_entries g') = 1 /\
  entry_get "TITLE" (tag_entries g') = "b" /\
  snd (load_lines (cleared setup_entries) text) = [].
Proof. repeat split. Qed.

(** C6 on a machine without the tool: the three handlers launch the
    probe and nothing else, and the form and the file stay as they
    were. *)
Lemma unavailable_blocks_mutation_witness :
  let d := Metaflac.mkDisk false demo_path ["TITLE=Song"] in
  let s := mkState d edited_form [] in
  fst (check_metaflac Metaflac.disk demo_tool s) = inl false /\
  runs (trace (snd (save_tags Metaflac.disk demo_tool demo_now s)))
    = [cmd_version] /\
  runs (trace (snd (save_tags_and_exit Metaflac.disk demo_tool s)))
    = [cmd_version] /\
  runs (trace (snd (remove_all_tags Metaflac.disk demo_tool true s)))
    = [cmd_version] /\
  world (snd (save_tags Metaflac.disk demo_tool demo_now s)) = d.
Proof.
  destruct (unavailable_blocks_mutation Metaflac.disk demo_tool
              (mkState (Metaflac.mkDisk false demo_path ["TITLE=Song"])
                 edited_form [])
              demo_now true
              (Metaflac.mkDisk false demo_path ["TITLE=Song"])
              ExecutableNotFound eq_refl I) as [C _].
  cbv zeta. split; [exact C|]. repeat split.
Defined.

(** C7 for a file that exists under the current directory. *)
Lemma main_validates_witness :
  main (fun _ => true) "/home/dj" (Some "sets/../a.FLAC") =
  Window (Some "/home/dj/a.FLAC").
Proof.
  exact (proj1 (proj2 (main_validates (fun _ => true) "/home/dj"
                         "sets/../a.FLAC" eq_refl) eq_refl)).
Defined.

(** C7 as stated fails: for a file that is no FLAC file the error line
    goes to standard output and standard error stays empty; and for the
    empty string as the argument, a path that does not exist, the window
    opens with no file. *)
Lemma main_prints_to_stdout :
  main (fun _ => false) "/home/dj" (Some "song.mp3") =
    Exit 1 ("Error: File 'song.mp3' does not exist or is not a FLAC file."
            ++ NL) "" /\
  main (fun _ => false) "/home/dj" (Some "") = Window None.
Proof. split; reflexivity. Qed.

(** C8 at the scenario: after the removal the form and the file are
    empty, and only the probe and the removal were launched. *)
Lemma remove_all_resets_form_witness :
  let s' := snd (remove_all_tags Metaflac.disk demo_tool true
                   (mkState scenario_disk blank_artist_form [])) in
  tag_entries (gui s') = setup_entries /\
  custom_tags_text (gui s') = "" /\
  Metaflac.comments (world s') = [] /\
  runs (trace s') = [cmd_version; cmd_remove_all demo_path].
Proof.
  destruct (remove_all_resets_form Metaflac.disk demo_tool
              (mkState scenario_disk blank_artist_form []) demo_path
              scenario_disk "" "" (demo_disk []) "" ""
              eq_refl eq_refl eq_refl) as [_ [_ [C [W R]]]].
  cbv zeta. split; [reflexivity|]. split; [exact C|].
  split; [rewrite W; reflexivity | exact R].
Defined.

(** C9 for a file that is not on the machine: the export exits 1 and
    the form, which held a title, is left empty. *)
Lemma load_failure_leaves_form_empty_witness :
  let g := fill_form (Some "/music/gone.flac") [("TITLE", "Song")] "XCUSTOM=1" in
  let res := load_tags Metaflac.disk demo_tool (mkState scenario_disk g []) in
  entry_get "TITLE" (tag_entries g) = "Song" /\
  tag_entries (gui (snd res)) = setup_entries /\
  custom_tags_text (gui (snd res)) = "".
Proof.
  destruct (load_failure_leaves_form_empty Metaflac.disk demo_tool
              (mkState scenario_disk
                 (fill_form (Some "/music/gone.flac") [("TITLE", "Song")]
                    "XCUSTOM=1") [])
              "/music/gone.flac" scenario_disk "" "" scenario_disk
              (Exited 1 "" "") eq_refl eq_refl eq_refl
              (fun H : 1%Z = 0%Z =>
                 eq_ind 1%Z (fun z => match z with 0%Z => False | _ => True end)
                   I 0%Z H)) as [_ [_ [C _]]].
  cbv zeta. split; [reflexivity|]. split; [reflexivity | exact C].
Defined.



(** * Further properties of the handlers *)

Section Outcomes.

Variable World : Type.
Variable launch : World -> list string -> World * proc_result.

(** The three ways [check_metaflac] can end. *)
Lemma check_metaflac_cases (s : state World) :
  (exists w1 out err,
     launch (world s) cmd_version = (w1, Exited 0 out err) /\
     check_metaflac World launch s =
     (inl true, mkState w1 (gui s) (trace s ++ [Run cmd_version])))
  \/ (exists w1 r,
        launch (world s) cmd_version = (w1, r) /\ probe_fails r /\
        check_metaflac World launch s =
        (inl false,
         mkState w1 (gui s)
           (trace s ++ [Run cmd_version; ShowError "Error" (Msg install_text)])))
  \/ (exists w1 m,
        launch (world s) cmd_version = (w1, LaunchFailed m) /\
        check_metaflac World launch s =
        (inr (OtherException m),
         mkState w1 (gui s) (trace s ++ [Run cmd_version]))).
Proof.
  destruct (launch (world s) cmd_version) as [w1 r] eqn:E.
  destruct r as [rc out err| |m].
  - destruct (Z.eqb_spec rc 0) as [->|Hrc].
    + left. exists w1, out, err. split; [reflexivity|].
      exact (check_metaflac_ok World launch s w1 out err E).
    + right; left. exists w1, (Exited rc out err).
      split; [reflexivity|]. split; [exact Hrc|].
      exact (check_metaflac_fails World launch s w1 _ E Hrc).
  - right; left. exists w1, ExecutableNotFound.
    split; [reflexivity|]. split; [exact I|].
    exact (check_metaflac_fails World launch s w1 _ E I).
  - right; right. exists w1, m. split; [reflexivity|].
    unfold check_metaflac, try_except, bind, subprocess_run. rewrite E.
    reflexivity.
Qed.

(** A launch either exits zero or raises. *)
Lemma exits_zero_or_raises (r : proc_result) :
  (exists out err, r = Exited 0 out err) \/ raises r.
Proof.
  destruct r as [rc out err| |m]; simpl; auto.
  destruct (Z.eqb_spec rc 0) as [->|H]; [left; eauto | right; exact H].
Qed.

Lemma no_file_warned (s : state World) (now : string) (answer : bool) :
  file_selected (gui s) = None ->
  let warned :=
    mkState (world s) (gui s)
      (trace s ++ [ShowWarning "Warning" (Msg "Please select a FLAC file first")])
  in
  load_tags World launch s = (inl tt, warned) /\
  save_tags World launch now s = (inl tt, warned) /\
  save_tags_and_exit World launch s = (inl tt, warned) /\
  remove_all_tags World launch answer s = (inl tt, warned) /\
  show_raw_output World launch s = (inl None, warned).
Proof.
  intros H. cbv zeta.
  unfold load_tags, save_tags, save_tags_and_exit, remove_all_tags,
    show_raw_output, bind, get_gui.
  rewrite H. repeat split.
Qed.

(** X1. With no file selected, that is [None] or the empty string, the
    five handlers show the warning and do nothing else: nothing is
    launched and the form is as it was. *)
Theorem no_file_no_launch (s : state World) (now : string) (answer : bool) :
  file_selected (gui s) = None ->
  let warned :=
    mkState (world s) (gui s)
      (trace s ++ [ShowWarning "Warning" (Msg "Please select a FLAC file first")])
  in
  load_tags World launch s = (inl tt, warned) /\
  save_tags World launch now s = (inl tt, warned) /\
  save_tags_and_exit World launch s = (inl tt, warned) /\
  remove_all_tags World launch answer s = (inl tt, warned) /\
  show_raw_output World launch s = (inl None, warned).
Proof.
  intros H. cbv zeta.
  unfold load_tags, save_tags, save_tags_and_exit, remove_all_tags,
    show_raw_output, bind, get_gui.
  rewrite H. repeat split.
Qed.

(** The form after [save_tags] is the form before, or the form before
    with the two messages of a success. *)
Lemma save_tags_gui (s : state World) (now : string) :
  gui (snd (save_tags World launch now s)) = gui s \/
  exists st su,
    gui (snd (save_tags World launch now s)) = set_success su (set_status st (gui s)).
Proof.
  destruct (file_selected (gui s)) as [file|] eqn:Hf.
  2:{ left. unfold save_tags, bind, get_gui. rewrite Hf. reflexivity. }
  destruct (check_metaflac_cases s)
    as [[w1 [out [err [Hv C]]]]|[[w1 [r [Hv [Hr C]]]]|[w1 [m [Hv C]]]]].
  - rewrite (save_tags_exec World launch now s file w1 out err Hf Hv).
    destruct (exec launch w1 (save_plan file (gui s))) as [[w2 ran] e].
    destruct e as [[c rc er| |m]|]; cbn; eauto.
  - left. unfold save_tags, bind, get_gui. rewrite Hf, C. reflexivity.
  - left. unfold save_tags, bind, get_gui. rewrite Hf, C. reflexivity.
Qed.

Lemma save_tags_and_exit_gui (s : state World) :
  gui (snd (save_tags_and_exit World launch s)) = gui s.
Proof.
  destruct (file_selected (gui s)) as [file|] eqn:Hf.
  2:{ unfold save_tags_and_exit, bind, get_gui. rewrite Hf. reflexivity. }
  destruct (check_metaflac_cases s)
    as [[w1 [out [err [Hv C]]]]|[[w1 [r [Hv [Hr C]]]]|[w1 [m [Hv C]]]]].
  - rewrite (save_tags_and_exit_exec World launch s file w1 out err Hf Hv).
    destruct (exec launch w1 (save_plan file (gui s))) as [[w2 ran] e].
    destruct e as [[c rc er| |m]|]; reflexivity.
  - unfold save_tags_and_exit, bind, get_gui. rewrite Hf, C. reflexivity.
  - unfold save_tags_and_exit, bind, get_gui. rewrite Hf, C. reflexivity.
Qed.

(** X2. Whatever the tool does, [save_tags] and [save_tags_and_exit]
    leave the selected file, every Entry and the custom area as they
    were: a save never edits what the user typed, not even by trimming
    it. *)
Theorem save_keeps_form (s : state World) (now : string) :
  forall s',
    s' = snd (save_tags World launch now s) \/
    s' = snd (save_tags_and_exit World launch s) ->
    current_file (gui s') = current_file (gui s) /\
    tag_entries (gui s') = tag_entries (gui s) /\
    custom_tags_text (gui s') = custom_tags_text (gui s).
Proof.
  intros s' [->| ->].
  - destruct (save_tags_gui s now) as [E|[st [su E]]]; rewrite E; auto.
  - rewrite save_tags_and_exit_gui. auto.
Qed.

End Outcomes.

Lemma load_line_keys (acc : entries * list string) (line : string) :
  keys (fst (load_line acc line)) = keys (fst acc).
Proof.
  destruct acc as [es c]. unfold load_line.
  destruct (Py.has_eq line); auto.
  destruct (Py.split_eq1 line) as [[k v]|]; auto.
  destruct (has_key (Py.upper k) es); auto.
  cbn [fst]. apply entry_set_keys.
Qed.

Lemma load_lines_keys (es : entries) (text : string) :
  keys (fst (load_lines es text)) = keys es.
Proof.
  unfold load_lines. generalize (Py.split_nl (Py.strip text)) as lines.
  generalize (@nil string) as c. intros c lines. revert es c.
  induction lines as [|l lines IH]; intros es c; auto.
  cbn [fold_left]. pose proof (load_line_keys (es, c) l) as K.
  destruct (load_line (es, c) l) as [es1 c1]. rewrite IH. exact K.
Qed.

Section OutcomesOfLoad.

Variable World : Type.
Variable launch : World -> list string -> World * proc_result.

(** The four ways [load_tags] can end once a file is selected. *)
Lemma load_tags_cases (s : state World) (file : string) :
  file_selected (gui s) = Some file ->
  (exists w1 w2 text body,
     load_tags World launch s =
     (inl tt,
      mkState w2 (show_export file text (clear_form_pure (gui s)))
        (trace s ++ [Run cmd_version; Run (cmd_export file)])) \/
     load_tags World launch s =
     (inl tt,
      mkState w2 (clear_form_pure (gui s))
        (trace s ++ [Run cmd_version; Run (cmd_export file);
                     ShowError "Error" body])) \/
     load_tags World launch s =
     (inl tt,
      mkState w1 (gui s)
        (trace s ++ [Run cmd_version; ShowError "Error" (Msg install_text)])))
  \/ (exists w1 m,
        launch (world s) cmd_version = (w1, LaunchFailed m) /\
        load_tags World launch s =
        (inr (OtherException m),
         mkState w1 (gui s) (trace s ++ [Run cmd_version]))).
Proof.
  intros Hf.
  destruct (check_metaflac_cases World launch s)
    as [[w1 [out [err [Hv C]]]]|[[w1 [r [Hv [Hr C]]]]|[w1 [m [Hv C]]]]].
  - left. destruct (launch w1 (cmd_export file)) as [w2 r] eqn:He.
    destruct (exits_zero_or_raises r) as [[text [err2 ->]]|Hr].
    + exists w1, w2, text, (Msg ""). left.
      exact (load_tags_ok World launch s file w1 out err w2 text err2 Hf Hv He).
    + destruct (load_tags_export_raises World launch s file w1 out err w2 r
                  Hf Hv He Hr) as [body E].
      exists w1, w2, "", body. right; left. exact E.
  - left. exists w1, w1, "", (Msg ""). right; right.
    unfold load_tags, bind, get_gui. rewrite Hf, C. reflexivity.
  - right. exists w1, m. split; [exact Hv|].
    unfold load_tags, bind, get_gui. rewrite Hf, C. reflexivity.
Qed.

(** X3. [load_tags] launches the version probe and the export of the
    selected file and nothing else, whatever the tool answers: it never
    launches remove-all-tags or set-tag. *)
Theorem load_is_read_only (s : state World) :
  exists evs,
    trace (snd (load_tags World launch s)) = trace s ++ evs /\
    launches_only
      (fun argv =>
         argv = cmd_version \/
         exists file, file_selected (gui s) = Some file /\
                      argv = cmd_export file)
      evs.
Proof.
  destruct (file_selected (gui s)) as [file|] eqn:Hf.
  2:{ destruct (no_file_warned World launch s "" true Hf) as [E _].
      cbv zeta in E. rewrite E. eexists. split; [reflexivity|].
      intros argv [H|[]]. discriminate. }
  assert (P : forall argv tail,
            (forall a, In (Run a) tail -> False) ->
            In (Run argv) (Run cmd_version :: Run (cmd_export file) :: tail) ->
            argv = cmd_version \/
            exists file0, Some file = Some file0 /\ argv = cmd_export file0).
  { intros argv tail T [H|[H|H]].
    - left. injection H; auto.
    - right. exists file. split; auto. injection H; auto.
    - destruct (T argv H). }
  destruct (load_tags_cases s file Hf)
    as [[w1 [w2 [text [body [E|[E|E]]]]]]|[w1 [m [_ E]]]]; rewrite E;
    cbn [snd trace]; eexists; (split; [reflexivity|]); intros argv H.
  - apply (P argv []); [intros a []|exact H].
  - apply (P argv [ShowError "Error" body]); [|exact H].
    intros a [Ha|[]]. discriminate.
  - destruct H as [H|[H|[]]]; [left; injection H; auto | discriminate].
  - destruct H as [H|[]]. left; injection H; auto.
Qed.

(** X4. An exception escapes [load_tags], [save_tags] or
    [save_tags_and_exit] in one case only: the version probe itself
    fails to launch for another reason than a missing executable. Every
    failure of a later launch is caught and ends in a dialog. *)
Theorem only_the_probe_escapes (s : state World) (now : string) :
  forall res,
    In res [fst (load_tags World launch s);
            fst (save_tags World launch now s);
            fst (save_tags_and_exit World launch s)] ->
    res = inl tt \/
    exists w1 m,
      launch (world s) cmd_version = (w1, LaunchFailed m) /\
      res = inr (OtherException m).
Proof.
  intros res Hres.
  destruct (file_selected (gui s)) as [file|] eqn:Hf.
  2:{ destruct (no_file_warned World launch s now true Hf)
        as [E1 [E2 [E3 _]]]. cbv zeta in *.
      destruct Hres as [<-|[<-|[<-|[]]]]; left;
        [rewrite E1 | rewrite E2 | rewrite E3]; reflexivity. }
  destruct Hres as [<-|[<-|[<-|[]]]].
  - destruct (load_tags_cases s file Hf)
      as [[w1 [w2 [text [body [E|[E|E]]]]]]|[w1 [m [Hv E]]]]; rewrite E;
      [left; reflexivity .. | right; exists w1, m; auto].
  - destruct (check_metaflac_cases World launch s)
      as [[w1 [out [err [Hv C]]]]|[[w1 [r [Hv [Hr C]]]]|[w1 [m [Hv C]]]]].
    + left. rewrite (save_tags_exec World launch now s file w1 out err Hf Hv).
      destruct (exec launch w1 (save_plan file (gui s))) as [[w2 ran] e].
      destruct e as [[c rc er| |m]|]; reflexivity.
    + left. unfold save_tags, bind, get_gui. rewrite Hf, C. reflexivity.
    + right. exists w1, m. split; [exact Hv|].
      unfold save_tags, bind, get_gui. rewrite Hf, C. reflexivity.
  - destruct (check_metaflac_cases World launch s)
      as [[w1 [out [err [Hv C]]]]|[[w1 [r [Hv [Hr C]]]]|[w1 [m [Hv C]]]]].
    + left.
      rewrite (save_tags_and_exit_exec World launch s file w1 out err Hf Hv).
      destruct (exec launch w1 (save_plan file (gui s))) as [[w2 ran] e].
      destruct e as [[c rc er| |m]|]; reflexivity.
    + left. unfold save_tags_and_exit, bind, get_gui. rewrite Hf, C.
      reflexivity.
    + right. exists w1, m. split; [exact Hv|].
      unfold save_tags_and_exit, bind, get_gui. rewrite Hf, C. reflexivity.
Qed.

End OutcomesOfLoad.

Section OutcomesOfRemoval.

Variable World : Type.
Variable launch : World -> list string -> World * proc_result.

(** [remove_all_tags] when the user confirms, the probe passes and the
    removal raises. *)
Lemma remove_all_tags_raises (s : state World) (file : string)
  w1 out err w2 r :
  file_selected (gui s) = Some file ->
  launch (world s) cmd_version = (w1, Exited 0 out err) ->
  launch w1 (cmd_remove_all file) = (w2, r) -> raises r ->
  remove_all_tags World launch true s =
  (match r with
   | Exited _ _ _ => inl tt
   | ExecutableNotFound => inr FileNotFoundError
   | LaunchFailed m => inr (OtherException m)
   end,
   mkState w2 (gui s)
     (trace s ++
      [AskYesNo "Confirm" (Msg "Remove all tags from this file?") true;
       Run cmd_version; Run (cmd_remove_all file)] ++
      match r with
      | Exited rc _ e =>
          [ShowError "Error"
             (MsgExn "Failed to remove tags: "
                (CalledProcessError (cmd_remove_all file) rc e))]
      | _ => []
      end)).
Proof.
  intros Hf Hv Hr R. unfold remove_all_tags, bind, get_gui. rewrite Hf.
  unfold emit. cbv beta iota. change (negb true) with false. cbv iota.
  cbn [world gui trace].
  rewrite (check_metaflac_ok World launch
             (mkState (world s) (gui s)
                (trace s ++
                 [AskYesNo "Confirm" (Msg "Remove all tags from this file?")
                    true])) w1 out err Hv).
  change (negb true) with false. cbv beta iota.
  unfold try_except, bind, subprocess_run. cbn [world gui trace]. rewrite Hr.
  destruct r as [rc o e| |m]; cbn in R |- *.
  - destruct (Z.eqb_spec rc 0); [contradiction|].
    cbn [world gui trace]. rewrite <- !app_assoc. reflexivity.
  - rewrite <- !app_assoc. reflexivity.
  - rewrite <- !app_assoc. reflexivity.
Qed.

(** X5. When the removal raises, [remove_all_tags] leaves the form as it
    was, unlike [load_tags]: a non-zero exit ends in the error dialog,
    and a failure to launch (the executable gone since the probe, or any
    other) is not caught at all: the handler raises and shows
    nothing. *)
Theorem remove_all_failure_keeps_form (s : state World) (file : string)
  w1 out err w2 r :
  file_selected (gui s) = Some file ->
  launch (world s) cmd_version = (w1, Exited 0 out err) ->
  launch w1 (cmd_remove_all file) = (w2, r) -> raises r ->
  let res := remove_all_tags World launch true s in
  gui (snd res) = gui s /\
  world (snd res) = w2 /\
  match r with
  | Exited rc _ e =>
      fst res = inl tt /\
      trace (snd res) =
      trace s ++
      [AskYesNo "Confirm" (Msg "Remove all tags from this file?") true;
       Run cmd_version; Run (cmd_remove_all file);
       ShowError "Error"
         (MsgExn "Failed to remove tags: "
            (CalledProcessError (cmd_remove_all file) rc e))]
  | ExecutableNotFound =>
      fst res = inr FileNotFoundError /\
      trace (snd res) =
      trace s ++
      [AskYesNo "Confirm" (Msg "Remove all tags from this file?") true;
       Run cmd_version; Run (cmd_remove_all file)]
  | LaunchFailed m =>
      fst res = inr (OtherException m) /\
      trace (snd res) =
      trace s ++
      [AskYesNo "Confirm" (Msg "Remove all tags from this file?") true;
       Run cmd_version; Run (cmd_remove_all file)]
  end.
Proof.
  intros Hf Hv Hr R. cbv zeta.
  rewrite (remove_all_tags_raises s file w1 out err w2 r Hf Hv Hr R).
  cbn [fst snd gui world trace]. split; [reflexivity|]. split; [reflexivity|].
  destruct r; split; reflexivity.
Qed.

(** The form after [remove_all_tags], whatever happens. *)
Lemma remove_all_tags_gui (s : state World) (answer : bool) :
  gui (snd (remove_all_tags World launch answer s)) = gui s \/
  exists st,
    gui (snd (remove_all_tags World launch answer s)) =
    set_status st (clear_form_pure (gui s)).
Proof.
  destruct (file_selected (gui s)) as [file|] eqn:Hf.
  2:{ left. unfold remove_all_tags, bind, get_gui. rewrite Hf. reflexivity. }
  destruct answer.
  2:{ left. unfold remove_all_tags, bind, get_gui. rewrite Hf. reflexivity. }
  destruct (launch (world s) cmd_version) as [w1 r] eqn:Hv.
  destruct (exits_zero_or_raises r) as [[out [err ->]]|Hr].
  - destruct (launch w1 (cmd_remove_all file)) as [w2 r2] eqn:H2.
    destruct (exits_zero_or_raises r2) as [[o [e ->]]|Hr2].
    + right. eexists.
      rewrite (remove_all_tags_ok World launch s file w1 out err w2 o e
                 Hf Hv H2). reflexivity.
    + left.
      rewrite (remove_all_tags_raises s file w1 out err w2 r2 Hf Hv H2 Hr2).
      reflexivity.
  - left. unfold remove_all_tags, bind, get_gui. rewrite Hf.
    unfold emit. cbv beta iota. change (negb true) with false. cbv iota.
    unfold check_metaflac, try_except, bind, subprocess_run.
    cbn [world gui trace]. rewrite Hv.
    destruct r as [rc o e| |m]; cbn in Hr |- *.
    + destruct (Z.eqb_spec rc 0); [contradiction | reflexivity].
    + reflexivity.
    + reflexivity.
Qed.

(** [show_raw_output], by what the two launches answer. *)
Lemma show_raw_output_cases (s : state World) (file : string) w1 r1 w2 r2 :
  file_selected (gui s) = Some file ->
  launch (world s) cmd_version = (w1, r1) ->
  launch w1 (cmd_list file) = (w2, r2) ->
  show_raw_output World launch s =
  match r1 with
  | Exited rc1 _ _ =>
      if (rc1 =? 0)%Z then
        match r2 with
        | Exited rc2 text e2 =>
            if (rc2 =? 0)%Z then
              (inl (Some (("Raw MetaFLAC Output - "
                           ++ PosixPath.basename file)%string, text)),
               mkState w2 (gui s)
                 (trace s ++ [Run cmd_version; Run (cmd_list file)]))
            else
              (inl None,
               mkState w2 (gui s)
                 (trace s ++
                  [Run cmd_version; Run (cmd_list file);
                   ShowError "Error"
                     (MsgExn "Failed to get raw output: "
                        (CalledProcessError (cmd_list file) rc2 e2))]))
        | ExecutableNotFound =>
            (inr FileNotFoundError,
             mkState w2 (gui s)
               (trace s ++ [Run cmd_version; Run (cmd_list file)]))
        | LaunchFailed m =>
            (inr (OtherException m),
             mkState w2 (gui s)
               (trace s ++ [Run cmd_version; Run (cmd_list file)]))
        end
      else
        (inl None,
         mkState w1 (gui s)
           (trace s ++ [Run cmd_version; ShowError "Error" (Msg install_text)]))
  | ExecutableNotFound =>
      (inl None,
       mkState w1 (gui s)
         (trace s ++ [Run cmd_version; ShowError "Error" (Msg install_text)]))
  | LaunchFailed m =>
      (inr (OtherException m),
       mkState w1 (gui s) (trace s ++ [Run cmd_version]))
  end.
Proof.
  intros Hf H1 H2. unfold show_raw_output, bind, get_gui. rewrite Hf.
  unfold check_metaflac, try_except, bind, subprocess_run. rewrite H1.
  destruct r1 as [rc1 o1 e1| |m1]; cbn [world gui trace].
  - destruct (rc1 =? 0)%Z; cbn [negb world gui trace ret].
    + unfold ret. cbn [negb world gui trace]. rewrite H2.
      destruct r2 as [rc2 o2 e2| |m2]; cbn [world gui trace].
      * destruct (rc2 =? 0)%Z; unfold emit; cbn [world gui trace];
          rewrite <- !app_assoc; reflexivity.
      * rewrite <- !app_assoc; reflexivity.
      * rewrite <- !app_assoc; reflexivity.
    + unfold emit, ret. cbn [negb world gui trace].
      rewrite <- !app_assoc. reflexivity.
  - unfold emit, ret. cbn [negb world gui trace].
    rewrite <- !app_assoc. reflexivity.
  - reflexivity.
Qed.

End OutcomesOfRemoval.

Section Invariants.

Variable World : Type.
Variable launch : World -> list string -> World * proc_result.

Lemma show_raw_output_gui (s : state World) :
  gui (snd (show_raw_output World launch s)) = gui s.
Proof.
  destruct (file_selected (gui s)) as [file|] eqn:Hf.
  2:{ unfold show_raw_output, bind, get_gui. rewrite Hf. reflexivity. }
  destruct (launch (world s) cmd_version) as [w1 r1] eqn:H1.
  destruct (launch w1 (cmd_list file)) as [w2 r2] eqn:H2.
  rewrite (show_raw_output_cases World launch s file w1 r1 w2 r2 Hf H1 H2).
  destruct r1 as [rc1 o1 e1| |m1]; try reflexivity.
  destruct (rc1 =? 0)%Z; try reflexivity.
  destruct r2 as [rc2 o2 e2| |m2]; try reflexivity.
  destruct (rc2 =? 0)%Z; reflexivity.
Qed.

Lemma load_tags_gui (s : state World) :
  gui (snd (load_tags World launch s)) = gui s \/
  gui (snd (load_tags World launch s)) = clear_form_pure (gui s) \/
  exists file text,
    gui (snd (load_tags World launch s)) =
    show_export file text (clear_form_pure (gui s)).
Proof.
  destruct (file_selected (gui s)) as [file|] eqn:Hf.
  2:{ left. unfold load_tags, bind, get_gui. rewrite Hf. reflexivity. }
  destruct (load_tags_cases World launch s file Hf)
    as [[w1 [w2 [text [body [E|[E|E]]]]]]|[w1 [m [_ E]]]]; rewrite E.
  - right; right. exists file, text. reflexivity.
  - right; left. reflexivity.
  - left. reflexivity.
  - left. reflexivity.
Qed.

(** X6. No handler ever changes which fields the form has, their order,
    or the selected file, whatever the tool does: the dictionary of
    Entries keeps the keys [setup_ui] gave it. *)
Theorem handlers_keep_fields (s : state World) (now : string) (answer : bool) :
  forall s',
    In s' [snd (load_tags World launch s);
           snd (save_tags World launch now s);
           snd (save_tags_and_exit World launch s);
           snd (remove_all_tags World launch answer s);
           snd (show_raw_output World launch s);
           snd (clear_form World s)] ->
    keys (tag_entries (gui s')) = keys (tag_entries (gui s)) /\
    current_file (gui s') = current_file (gui s).
Proof.
  intros s' [<-|[<-|[<-|[<-|[<-|[<-|[]]]]]]].
  - destruct (load_tags_gui s) as [E|[E|[file [text E]]]]; rewrite E.
    + auto.
    + split; [apply cleared_keys | reflexivity].
    + rewrite show_export_entries, show_export_file, load_lines_keys.
      split; [apply cleared_keys | reflexivity].
  - destruct (save_tags_gui World launch s now) as [E|[st [su E]]];
      rewrite E; auto.
  - rewrite save_tags_and_exit_gui. auto.
  - destruct (remove_all_tags_gui World launch s answer) as [E|[st E]];
      rewrite E; [auto|]. split; [apply cleared_keys | reflexivity].
  - rewrite show_raw_output_gui. auto.
  - split; [apply cleared_keys | reflexivity].
Qed.

(** X7. [show_raw_output] only reads: it leaves the form as it was and
    launches the probe and the listing of the VORBIS_COMMENT block of the
    selected file, nothing else; and the window it opens, if it opens
    one, shows the standard output of that listing, which exited
    zero. *)
Theorem show_raw_output_reads_only (s : state World) :
  let res := show_raw_output World launch s in
  gui (snd res) = gui s /\
  (exists evs,
     trace (snd res) = trace s ++ evs /\
     launches_only
       (fun argv =>
          argv = cmd_version \/
          exists file, file_selected (gui s) = Some file /\
                       argv = cmd_list file)
       evs) /\
  forall title text,
    fst res = inl (Some (title, text)) ->
    exists file w1 out err w2 err2,
      file_selected (gui s) = Some file /\
      launch (world s) cmd_version = (w1, Exited 0 out err) /\
      launch w1 (cmd_list file) = (w2, Exited 0 text err2) /\
      title = ("Raw MetaFLAC Output - " ++ PosixPath.basename file)%string.
Proof.
  cbv zeta. split; [apply show_raw_output_gui|].
  destruct (file_selected (gui s)) as [file|] eqn:Hf.
  2:{ destruct (no_file_warned World launch s "" true Hf) as [_ [_ [_ [_ E]]]].
      cbv zeta in E. rewrite E. cbn [fst snd trace]. split.
      - eexists. split; [reflexivity|]. intros argv [H|[]]. discriminate.
      - intros title text H. discriminate. }
  destruct (launch (world s) cmd_version) as [w1 r1] eqn:H1.
  destruct (launch w1 (cmd_list file)) as [w2 r2] eqn:H2.
  rewrite (show_raw_output_cases World launch s file w1 r1 w2 r2 Hf H1 H2).
  assert (P1 : forall argv tail,
            (forall a, In (Run a) tail -> False) ->
            In (Run argv) (Run cmd_version :: tail) ->
            argv = cmd_version \/
            exists file0, Some file = Some file0 /\ argv = cmd_list file0).
  { intros argv tail T [H|H]; [left; injection H; auto | destruct (T argv H)]. }
  assert (P2 : forall argv tail,
            (forall a, In (Run a) tail -> False) ->
            In (Run argv) (Run cmd_version :: Run (cmd_list file) :: tail) ->
            argv = cmd_version \/
            exists file0, Some file = Some file0 /\ argv = cmd_list file0).
  { intros argv tail T [H|[H|H]].
    - left. injection H; auto.
    - right. exists file. split; auto. injection H; auto.
    - destruct (T argv H). }
  assert (T0 : forall a : list string, In (Run a) [] -> False)
    by (intros a []).
  assert (T1 : forall (b : message) (a : list string),
            In (Run a) [ShowError "Error" b] -> False)
    by (intros b a [H|[]]; discriminate).
  destruct r1 as [rc1 o1 e1| |m1].
  - destruct (Z.eqb_spec rc1 0) as [->|N1].
    + destruct r2 as [rc2 o2 e2| |m2].
      * destruct (Z.eqb_spec rc2 0) as [->|N2]; cbn [fst snd trace]; split.
        -- eexists. split; [reflexivity|]. intros argv H.
           exact (P2 argv [] T0 H).
        -- intros title text H. injection H as <- <-.
           exists file, w1, o1, e1, w2, e2. auto.
        -- eexists. split; [reflexivity|]. intros argv H.
           exact (P2 argv _ (T1 _) H).
        -- intros title text H. discriminate.
      * cbn [fst snd trace]. split.
        -- eexists. split; [reflexivity|]. intros argv H.
           exact (P2 argv [] T0 H).
        -- intros title text H. discriminate.
      * cbn [fst snd trace]. split.
        -- eexists. split; [reflexivity|]. intros argv H.
           exact (P2 argv [] T0 H).
        -- intros title text H. discriminate.
    + cbn [fst snd trace]. split.
      * eexists. split; [reflexivity|]. intros argv H.
        exact (P1 argv _ (T1 _) H).
      * intros title text H. discriminate.
  - cbn [fst snd trace]. split.
    + eexists. split; [reflexivity|]. intros argv H.
      exact (P1 argv _ (T1 _) H).
    + intros title text H. discriminate.
  - cbn [fst snd trace]. split.
    + eexists. split; [reflexivity|]. intros argv H.
      exact (P1 argv [] T0 H).
    + intros title text H. discriminate.
Qed.

(** X8. [save_tags_and_exit] launches exactly what [save_tags] launches
    and leaves the world that [save_tags] leaves, whatever the tool
    does. *)
Theorem save_and_exit_launches_like_save (s : state World) (now : string) :
  world (snd (save_tags_and_exit World launch s)) =
    world (snd (save_tags World launch now s)) /\
  runs (trace (snd (save_tags_and_exit World launch s))) =
    runs (trace (snd (save_tags World launch now s))).
Proof.
  destruct (file_selected (gui s)) as [file|] eqn:Hf.
  2:{ destruct (no_file_warned World launch s now true Hf) as [_ [E2 [E3 _]]].
      cbv zeta in *. rewrite E2, E3. auto. }
  destruct (check_metaflac_cases World launch s)
    as [[w1 [out [err [Hv C]]]]|[[w1 [r [Hv [Hr C]]]]|[w1 [m [Hv C]]]]].
  - rewrite (save_tags_and_exit_exec World launch s file w1 out err Hf Hv).
    rewrite (save_tags_exec World launch now s file w1 out err Hf Hv).
    destruct (exec launch w1 (save_plan file (gui s))) as [[w2 ran] e].
    destruct e as [[c rc er| |m]|]; cbn [snd world trace];
      (split; [reflexivity|]); rewrite !runs_app; cbn [runs];
      rewrite ?app_nil_r; reflexivity.
  - unfold save_tags_and_exit, save_tags, bind, get_gui. rewrite Hf, C. auto.
  - unfold save_tags_and_exit, save_tags, bind, get_gui. rewrite Hf, C. auto.
Qed.

(** X9. [save_tags_and_exit] quits exactly when every launch of the save
    exited zero: after a failure the window stays open on the error
    dialog, with the file partly written. *)
Theorem save_and_exit_quits_on_success (s : state World) (file : string)
  w1 out err :
  file_selected (gui s) = Some file ->
  launch (world s) cmd_version = (w1, Exited 0 out err) ->
  exists evs,
    trace (snd (save_tags_and_exit World launch s)) = trace s ++ evs /\
    (In Quit evs <-> snd (exec launch w1 (save_plan file (gui s))) = None).
Proof.
  intros Hf Hv.
  rewrite (save_tags_and_exit_exec World launch s file w1 out err Hf Hv).
  destruct (exec launch w1 (save_plan file (gui s))) as [[w2 ran] e].
  assert (N : forall tail,
            (In Quit tail -> False) ->
            In Quit ((Run cmd_version :: map Run ran) ++ tail) -> False).
  { intros tail T H. apply in_app_or in H as [[H|H]|H]; auto.
    - discriminate.
    - apply in_map_iff in H as [a [Ha _]]. discriminate. }
  assert (T : forall b, In Quit [ShowError "Error" b] -> False)
    by (intros b [H|[]]; discriminate).
  destruct e as [[c rc er| |m]|]; cbn [snd trace];
    rewrite <- app_assoc; eexists; (split; [reflexivity|]); split;
    intros H; try discriminate.
  - exfalso. exact (N _ (T _) H).
  - exfalso. exact (N _ (T _) H).
  - exfalso. exact (N _ (T _) H).
  - reflexivity.
  - apply in_or_app. right. left. reflexivity.
Qed.

End Invariants.

Lemma cleared_setup (es : entries) :
  keys es = common_tags -> cleared es = setup_entries.
Proof.
  intros K. unfold setup_entries. rewrite <- K. unfold cleared, keys.
  rewrite map_map. reflexivity.
Qed.

Lemma load_lines_blank (es : entries) (text : string) :
  blank text = true -> load_lines es text = (es, []).
Proof. intros B. unfold load_lines. rewrite strip_blank; auto. Qed.

(** The lines of the custom area that come from a load are all written
    back by a save. *)
Lemma written_back (cs : list string) :
  Forall (fun l => one_line l = true) cs ->
  Forall (fun l => Py.has_eq l = true) cs ->
  filter Py.has_eq (map Py.strip (Py.split_nl (Py.join_nl cs))) =
  map Py.strip cs.
Proof.
  intros O E. destruct cs as [|c cs]; [reflexivity|].
  rewrite split_join; [|discriminate|exact O].
  clear O. induction E as [|l ls Hl _ IH]; auto.
  cbn [map filter]. rewrite has_eq_strip, Hl, IH. reflexivity.
Qed.

Section LoadFacts.

Variable World : Type.
Variable launch : World -> list string -> World * proc_result.

(** X10. When the export is empty or all white space, [load_tags] leaves
    every Entry and the custom area empty. *)
Theorem load_blank_export (s : state World) (file : string)
  w1 out err w2 text err2 :
  file_selected (gui s) = Some file ->
  launch (world s) cmd_version = (w1, Exited 0 out err) ->
  launch w1 (cmd_export file) = (w2, Exited 0 text err2) ->
  blank text = true ->
  let g' := gui (snd (load_tags World launch s)) in
  all_empty (tag_entries g') /\
  keys (tag_entries g') = keys (tag_entries (gui s)) /\
  custom_tags_text g' = "".
Proof.
  intros Hf Hv He B. cbv zeta.
  rewrite (load_tags_ok World launch s file w1 out err w2 text err2 Hf Hv He).
  cbn [snd gui].
  rewrite show_export_entries, show_export_custom by reflexivity.
  rewrite load_lines_blank by exact B. cbn [fst snd].
  repeat split; [apply cleared_all_empty | apply cleared_keys].
Qed.

(** X11. Once the probe has passed, what [load_tags] leaves in the
    Entries and in the custom area does not depend on what they held
    before: two forms on the same file in the same world come out of
    [load_tags] with the same fields, whether the export succeeds or
    not. *)
Theorem load_forgets_previous_form (w : World) (g1 g2 : form)
  (t1 t2 : list event) (file : string) w1 out err :
  file_selected g1 = Some file -> file_selected g2 = Some file ->
  keys (tag_entries g1) = common_tags -> keys (tag_entries g2) = common_tags ->
  launch w cmd_version = (w1, Exited 0 out err) ->
  let a := gui (snd (load_tags World launch (mkState w g1 t1))) in
  let b := gui (snd (load_tags World launch (mkState w g2 t2))) in
  tag_entries a = tag_entries b /\ custom_tags_text a = custom_tags_text b.
Proof.
  intros F1 F2 K1 K2 Hv. cbv zeta.
  destruct (launch w1 (cmd_export file)) as [w2 r] eqn:He.
  destruct (exits_zero_or_raises r) as [[text [err2 ->]]|Hr].
  - rewrite (load_tags_ok World launch (mkState w g1 t1) file w1 out err
               w2 text err2 F1 Hv He).
    rewrite (load_tags_ok World launch (mkState w g2 t2) file w1 out err
               w2 text err2 F2 Hv He).
    cbn [snd gui].
    rewrite !show_export_entries, !show_export_custom by reflexivity.
    change (tag_entries (clear_form_pure g1)) with (cleared (tag_entries g1)).
    change (tag_entries (clear_form_pure g2)) with (cleared (tag_entries g2)).
    rewrite (cleared_setup _ K1), (cleared_setup _ K2). auto.
  - destruct (load_tags_export_raises World launch (mkState w g1 t1) file
                w1 out err w2 r F1 Hv He Hr) as [b1 E1].
    destruct (load_tags_export_raises World launch (mkState w g2 t2) file
                w1 out err w2 r F2 Hv He Hr) as [b2 E2].
    rewrite E1, E2. cbn [snd gui].
    change (tag_entries (clear_form_pure g1)) with (cleared (tag_entries g1)).
    change (tag_entries (clear_form_pure g2)) with (cleared (tag_entries g2)).
    rewrite (cleared_setup _ K1), (cleared_setup _ K2). auto.
Qed.

(** The custom fields of the form that a load leaves. *)
Lemma loaded_custom_fields (s : state World) (file : string)
  w1 out err w2 text err2 :
  file_selected (gui s) = Some file ->
  keys (tag_entries (gui s)) = common_tags ->
  launch (world s) cmd_version = (w1, Exited 0 out err) ->
  launch w1 (cmd_export file) = (w2, Exited 0 text err2) ->
  custom_fields (gui (snd (load_tags World launch s))) =
  map Py.strip (filter custom_line (Py.split_nl (Py.strip text))).
Proof.
  intros Hf Hk Hv He.
  rewrite custom_fields_lines.
  rewrite (load_tags_ok World launch s file w1 out err w2 text err2 Hf Hv He).
  cbn [snd gui]. rewrite show_export_custom by reflexivity.
  unfold load_lines.
  destruct (load_lines_fold (Py.split_nl (Py.strip text))
              (cleared (tag_entries (gui s))) []) as [_ [C _]].
  { rewrite cleared_keys. exact Hk. }
  change (tag_entries (clear_form_pure (gui s)))
    with (cleared (tag_entries (gui s))).
  rewrite C. cbn [app]. apply written_back.
  - pose proof (split_nl_one_line (Py.strip text)) as O.
    rewrite Forall_forall in *. intros l Hl.
    apply filter_In in Hl as [Hl _]. auto.
  - apply Forall_forall. intros l Hl. apply filter_In in Hl as [_ Hl].
    unfold custom_line in Hl. apply andb_prop in Hl as [Hl _]. exact Hl.
Qed.

(** The launches of a [save_tags] that meets no failure. *)
Lemma save_runs_plan (s : state World) (now file : string) w1 out err :
  file_selected (gui s) = Some file ->
  launch (world s) cmd_version = (w1, Exited 0 out err) ->
  snd (exec launch w1 (save_plan file (gui s))) = None ->
  runs (trace (snd (save_tags World launch now s))) =
  runs (trace s) ++ cmd_version :: save_plan file (gui s).
Proof.
  intros Hf Hv He.
  rewrite (save_tags_exec World launch now s file w1 out err Hf Hv).
  destruct (exec launch w1 (save_plan file (gui s))) as [[w2 ran] e] eqn:E.
  simpl in He. subst e. apply exec_all in E. subst ran.
  cbn [snd trace]. rewrite runs_app. cbn [runs]. rewrite runs_map_Run.
  reflexivity.
Qed.

(** X12. When a load succeeds and the [save_tags] that follows it meets
    no failure, the save launches, after the probe, the removal and the
    set-tags of the well-known fields, one set-tag for every custom line
    of the trimmed export, trimmed and in the order of the export: none
    is dropped for want of an ['=']. *)
Theorem loaded_custom_lines_written_back (s : state World) (now file : string)
  w1 out err w2 text err2 w3 out3 err3 :
  file_selected (gui s) = Some file ->
  keys (tag_entries (gui s)) = common_tags ->
  launch (world s) cmd_version = (w1, Exited 0 out err) ->
  launch w1 (cmd_export file) = (w2, Exited 0 text err2) ->
  let s1 := snd (load_tags World launch s) in
  launch w2 cmd_version = (w3, Exited 0 out3 err3) ->
  snd (exec launch w3 (save_plan file (gui s1))) = None ->
  runs (trace (snd (save_tags World launch now s1))) =
  runs (trace s) ++
  [cmd_version; cmd_export file; cmd_version; cmd_remove_all file] ++
  map (fun field => cmd_set_tag field file)
    (flat_map (written_for (tag_entries (gui s1))) common_tags) ++
  map (fun field => cmd_set_tag field file)
    (map Py.strip (filter custom_line (Py.split_nl (Py.strip text)))).
Proof.
  intros Hf Hk Hv He. cbv zeta.
  pose proof (loaded_custom_fields s file w1 out err w2 text err2
                Hf Hk Hv He) as C.
  pose proof (load_tags_ok World launch s file w1 out err w2 text err2
                Hf Hv He) as L.
  destruct (load_tags World launch s) as [res s1] eqn:E.
  injection L as _ L. cbn [snd] in *. intros Hv3 He3.
  assert (Hf1 : file_selected (gui s1) = Some file).
  { rewrite L. cbn [gui]. unfold file_selected.
    rewrite show_export_file. exact Hf. }
  assert (Hk1 : keys (tag_entries (gui s1)) = common_tags).
  { rewrite L. cbn [gui]. rewrite show_export_entries, load_lines_keys.
    change (tag_entries (clear_form_pure (gui s)))
      with (cleared (tag_entries (gui s))).
    rewrite cleared_keys. exact Hk. }
  assert (W : world s1 = w2) by (rewrite L; reflexivity).
  assert (Tr : runs (trace s1) =
               runs (trace s) ++ [cmd_version; cmd_export file]).
  { rewrite L. cbn [trace]. rewrite runs_app. reflexivity. }
  rewrite <- W in Hv3.
  rewrite (save_runs_plan s1 now file w3 out3 err3 Hf1 Hv3 He3).
  unfold save_plan. rewrite map_app, C, Tr.
  rewrite common_fields_by_tag by (rewrite Hk1; apply common_tags_distinct).
  rewrite Hk1. rewrite <- app_assoc. reflexivity.
Qed.

End LoadFacts.

(** ** Saves on the modelled tool *)

Lemma field_trimmed (tag v : string) :
  good_tag tag = true -> Py.truthy (Py.strip v) = true ->
  Py.strip (tag ++ "=" ++ Py.strip v) = (tag ++ "=" ++ Py.strip v)%string.
Proof.
  intros G T. destruct (good_tag_facts _ G) as [_ [_ [_ [Tt L]]]].
  unfold Py.strip at 1.
  rewrite <- (append_assoc' tag "=" (Py.strip v)).
  rewrite (rstrip_app_fixed (tag ++ "=") (Py.strip v) T (strip_rstrip_fixed v)).
  rewrite (append_assoc' tag "=" (Py.strip v)).
  apply lstrip_app_fixed; auto.
Qed.

(** The fields of a save have an ['='] and no white space at either
    end, and those of the well-known fields a value that is not empty. *)
Lemma fields_well_formed (f : form) :
  keys (tag_entries f) = common_tags ->
  Forall (fun field => Py.has_eq field = true /\ Py.strip field = field)
    (common_fields (tag_entries f) ++ custom_fields f) /\
  Forall (fun field => Py.truthy (value_of field) = true)
    (common_fields (tag_entries f)).
Proof.
  intros K. pose proof common_tags_good as G. rewrite <- K in G. clear K.
  split.
  - apply Forall_app. split.
    + induction (tag_entries f) as [|[k v] es IH]; [constructor|].
      cbn [keys map fst forallb] in G. apply andb_prop in G as [Gk G].
      rewrite common_fields_cons. apply Forall_app. split; [|apply IH; exact G].
      destruct (Py.truthy (Py.strip v)) eqn:T; constructor; [|constructor].
      split; [apply has_eq_field | apply field_trimmed; assumption].
    + rewrite custom_fields_lines. apply Forall_forall. intros l Hl.
      apply filter_In in Hl as [Hin He].
      apply in_map_iff in Hin as [x [<- _]].
      split; [exact He | apply strip_idem].
  - induction (tag_entries f) as [|[k v] es IH]; [constructor|].
    cbn [keys map fst forallb] in G. apply andb_prop in G as [Gk G].
    rewrite common_fields_cons. apply Forall_app. split; [|apply IH; exact G].
    destruct (Py.truthy (Py.strip v)) eqn:T; constructor; [|constructor].
    rewrite value_of_field by assumption. exact T.
Qed.

Section LaunchesOfSave.

Variable World : Type.
Variable launch : World -> list string -> World * proc_result.

(** What [exec] has launched is among what it was given. *)
Lemma exec_launched_in (w : World) (cmds : list (list string))
  (argv : list string) :
  In argv (snd (fst (exec launch w cmds))) -> In argv cmds.
Proof.
  revert w. induction cmds as [|a cmds IH]; intro w; simpl; auto.
  destruct (launch w a) as [w1 r]. destruct r as [rc out err| |m]; simpl.
  - destruct (rc =? 0)%Z.
    + specialize (IH w1). destruct (exec launch w1 cmds) as [[w2 ran] e].
      simpl in *. intros [H|H]; auto.
    + simpl. intros [H|[]]; auto.
  - intros [H|[]]; auto.
  - intros [H|[]]; auto.
Qed.

(** X13. Whatever the tool does, [save_tags] and [save_tags_and_exit]
    launch nothing but the probe, the removal on the selected file and
    set-tags on the selected file whose argument has an ['='] and no
    white space at either end. *)
Theorem set_tags_are_well_formed (s : state World) (now : string) :
  keys (tag_entries (gui s)) = common_tags ->
  forall s',
    s' = snd (save_tags World launch now s) \/
    s' = snd (save_tags_and_exit World launch s) ->
    exists evs,
      trace s' = trace s ++ evs /\
      launches_only
        (fun argv =>
           argv = cmd_version \/
           exists file,
             file_selected (gui s) = Some file /\
             (argv = cmd_remove_all file \/
              exists field,
                argv = cmd_set_tag field file /\
                Py.has_eq field = true /\ Py.strip field = field))
        evs.
Proof.
  intros Hk s' Hs'.
  destruct (file_selected (gui s)) as [file|] eqn:Hf.
  2:{ destruct (no_file_warned World launch s now true Hf) as [_ [E2 [E3 _]]].
      cbv zeta in *.
      destruct Hs' as [-> | ->]; [rewrite E2 | rewrite E3]; cbn [snd trace];
        eexists; (split; [reflexivity|]); intros argv [H|[]]; discriminate. }
  assert (P : forall argv ran e tail,
            ran = snd (fst (exec launch e (save_plan file (gui s)))) ->
            (forall a, In (Run a) tail -> False) ->
            In (Run argv) ((Run cmd_version :: map Run ran) ++ tail) ->
            argv = cmd_version \/
            exists file0,
              Some file = Some file0 /\
              (argv = cmd_remove_all file0 \/
               exists field,
                 argv = cmd_set_tag field file0 /\
                 Py.has_eq field = true /\ Py.strip field = field)).
  { intros argv ran e tail -> T H.
    apply in_app_or in H as [[H|H]|H].
    - left. injection H; auto.
    - right. exists file. split; [reflexivity|].
      apply in_map_iff in H as [a [Ha Hin]]. injection Ha as ->.
      apply exec_launched_in in Hin. unfold save_plan in Hin.
      destruct Hin as [H|H]; [left; auto|]. right.
      apply in_map_iff in H as [field [<- Hfield]].
      exists field. split; [reflexivity|].
      pose proof (proj1 (fields_well_formed (gui s) Hk)) as W.
      rewrite Forall_forall in W. apply W. exact Hfield.
    - destruct (T argv H). }
  assert (T0 : forall a : list string, In (Run a) [] -> False)
    by (intros a []).
  assert (T1 : forall (b : message) (a : list string),
            In (Run a) [ShowError "Error" b] -> False)
    by (intros b a [H|[]]; discriminate).
  assert (T2 : forall a : list string, In (Run a) [Quit] -> False)
    by (intros a [H|[]]; discriminate).
  destruct (check_metaflac_cases World launch s)
    as [[w1 [out [err [Hv C]]]]|[[w1 [r [Hv [Hr C]]]]|[w1 [m [Hv C]]]]].
  - destruct Hs' as [-> | ->].
    + rewrite (save_tags_exec World launch now s file w1 out err Hf Hv).
      destruct (exec launch w1 (save_plan file (gui s))) as [[w2 ran] e] eqn:E.
      assert (R : ran = snd (fst (exec launch w1 (save_plan file (gui s)))))
        by (rewrite E; reflexivity).
      destruct e as [[c rc er| |m]|]; cbn [snd trace];
        rewrite <- ?app_assoc; eexists; (split; [reflexivity|]);
        intros argv H.
      * exact (P argv ran w1 _ R (T1 _) H).
      * exact (P argv ran w1 _ R (T1 _) H).
      * exact (P argv ran w1 _ R (T1 _) H).
      * apply (P argv ran w1 [] R T0). rewrite app_nil_r. exact H.
    + rewrite (save_tags_and_exit_exec World launch s file w1 out err Hf Hv).
      destruct (exec launch w1 (save_plan file (gui s))) as [[w2 ran] e] eqn:E.
      assert (R : ran = snd (fst (exec launch w1 (save_plan file (gui s)))))
        by (rewrite E; reflexivity).
      destruct e as [[c rc er| |m]|]; cbn [snd trace];
        rewrite <- ?app_assoc; eexists; (split; [reflexivity|]);
        intros argv H.
      * exact (P argv ran w1 _ R (T1 _) H).
      * exact (P argv ran w1 _ R (T1 _) H).
      * exact (P argv ran w1 _ R (T1 _) H).
      * exact (P argv ran w1 _ R T2 H).
  - destruct Hs' as [-> | ->];
      [unfold save_tags | unfold save_tags_and_exit]; unfold bind, get_gui;
      rewrite Hf, C; cbn [negb snd trace]; eexists;
      (split; [reflexivity|]); intros argv [H|[H|[]]];
      try discriminate; left; injection H; auto.
  - destruct Hs' as [-> | ->];
      [unfold save_tags | unfold save_tags_and_exit]; unfold bind, get_gui;
      rewrite Hf, C; cbn [snd trace]; eexists;
      (split; [reflexivity|]); intros argv [H|[]];
      left; injection H; auto.
Qed.

End LaunchesOfSave.

Section ToolFacts.

Variable arrange : list string -> list string.
Variable accepts : string -> bool.

Lemma tool_set_tag_refused (d : Metaflac.disk) (field : string) :
  Metaflac.installed d = true -> accepts field = false ->
  Metaflac.run arrange accepts d (cmd_set_tag field (Metaflac.flac_path d)) =
  (d, Exited 1 "" "").
Proof.
  intros H A. unfold Metaflac.run, cmd_set_tag. rewrite H, String.eqb_refl.
  cbn. rewrite A. reflexivity.
Qed.

(** X14. On the modelled tool a save replaces the tags of the file: what
    the file held before does not matter, and saving the same form a
    second time leaves the same tags, with no duplicate. *)
Theorem save_replaces_file_tags (d : Metaflac.disk) (g : form)
  (now now' : string) (t : list event) :
  Metaflac.installed d = true ->
  file_selected g = Some (Metaflac.flac_path d) ->
  Forall (fun field => accepts field = true)
    (common_fields (tag_entries g) ++ custom_fields g) ->
  let s1 := snd (save_tags Metaflac.disk (Metaflac.run arrange accepts) now
                   (mkState d g t)) in
  let s2 := snd (save_tags Metaflac.disk (Metaflac.run arrange accepts) now' s1) in
  Metaflac.comments (world s1) =
    common_fields (tag_entries g) ++ custom_fields g /\
  world s2 = world s1.
Proof.
  intros Hi Hf Ha. cbv zeta.
  rewrite (save_on_tool arrange accepts d g now t Hi Hf Ha). cbn [snd world].
  split; [reflexivity|].
  set (d1 := Metaflac.mkDisk true (Metaflac.flac_path d) _).
  set (g1 := set_success _ _). set (t1 := t ++ _).
  rewrite (save_on_tool arrange accepts d1 g1 now' t1 eq_refl Hf Ha).
  reflexivity.
Qed.

(** X15. On the modelled tool, when the tool takes the first fields of a
    save and refuses the next one, the file is left with exactly the
    fields it took: the old tags are gone, the fields after the refusal
    are not launched, the form is unchanged and the error dialog
    names the refused launch. *)
Theorem save_partial_write (d : Metaflac.disk) (g : form) (now : string)
  (t : list event) (pre post : list string) (x : string) :
  Metaflac.installed d = true ->
  file_selected g = Some (Metaflac.flac_path d) ->
  common_fields (tag_entries g) ++ custom_fields g = pre ++ x :: post ->
  Forall (fun field => accepts field = true) pre ->
  accepts x = false ->
  let file := Metaflac.flac_path d in
  save_tags Metaflac.disk (Metaflac.run arrange accepts) now (mkState d g t) =
  (inl tt,
   mkState (Metaflac.mkDisk true file pre) g
     (t ++ Run cmd_version :: Run (cmd_remove_all file) ::
      map (fun field => Run (cmd_set_tag field file)) pre ++
      [Run (cmd_set_tag x file);
       ShowError "Error"
         (MsgExn "Failed to save tags: "
            (CalledProcessError (cmd_set_tag x file) 1 ""))])).
Proof.
  intros Hi Hf Hp Ha Hx. cbv zeta.
  rewrite (save_tags_exec Metaflac.disk (Metaflac.run arrange accepts) now
             (mkState d g t) (Metaflac.flac_path d) d "" "" Hf
             (tool_version arrange accepts d Hi)).
  cbn [gui trace]. unfold save_plan. rewrite Hp, map_app. cbn [map].
  set (file := Metaflac.flac_path d).
  set (set := fun field => cmd_set_tag field file).
  assert (E : exec (Metaflac.run arrange accepts) d
                (cmd_remove_all file :: map set pre) =
              (Metaflac.mkDisk true file pre,
               cmd_remove_all file :: map set pre, None)).
  { cbn [exec]. unfold file. rewrite tool_remove_all by assumption.
    cbn [Z.eqb].
    pose proof (tool_set_tags arrange accepts pre
                  (Metaflac.mkDisk true (Metaflac.flac_path d) [])
                  eq_refl Ha) as T.
    cbn [Metaflac.flac_path Metaflac.comments app] in T.
    unfold set, file. rewrite T. reflexivity. }
  pose proof (exec_stops Metaflac.disk (Metaflac.run arrange accepts) d
                (cmd_remove_all file :: map set pre) (map set post)
                (cmd_set_tag x file)
                (Metaflac.mkDisk true file pre) (Metaflac.mkDisk true file pre)
                1%Z "" "" E
                (tool_set_tag_refused (Metaflac.mkDisk true file pre) x
                   eq_refl Hx)
                (fun H : 1%Z = 0%Z =>
                   eq_ind 1%Z
                     (fun z => match z with 0%Z => False | _ => True end)
                     I 0%Z H)) as S.
  cbn [app] in S. rewrite S.
  cbv beta iota zeta. f_equal. f_equal.
  cbn [map]. rewrite map_app. cbn [map]. unfold set. rewrite map_map.
  rewrite <- !app_assoc. cbn [app]. rewrite <- app_assoc. reflexivity.
Qed.



End ToolFacts.

(** ** Start-up and the first load *)

Lemma normpath_truthy (p : string) : Py.truthy (PosixPath.normpath p) = true.
Proof.
  unfold PosixPath.normpath. destruct (p =? "")%string; [reflexivity|].
  cbv zeta.
  match goal with
  | |- Py.truthy (if Py.truthy ?x then _ else _) = true =>
      destruct (Py.truthy x) eqn:E; [exact E | reflexivity]
  end.
Qed.

(** X18. When [main] accepts a file argument, the window opens on the
    absolute path, which is never empty, and [__init__] shows it in the
    file entry and runs [load_tags] on it; when there is no argument, or
    an empty one, [__init__] launches nothing and shows the empty
    form. *)
Theorem start_up_loads_accepted_file (World : Type)
  (launch : World -> list string -> World * proc_result)
  (path_exists : string -> bool) (cwd : string) (file : option string)
  (w : World) (initial_file : option string) :
  main path_exists cwd file = Window initial_file ->
  match initial_file with
  | Some path =>
      (exists arg, file = Some arg /\ path = PosixPath.abspath cwd arg /\
                   path_exists arg = true) /\
      app_init World launch (Some path) w =
      (load_tags World launch (mkState w (init_form (Some path)) []), path)
  | None =>
      app_init World launch None w =
      ((inl tt, mkState w (init_form None) []), "")
  end.
Proof.
  unfold main. destruct file as [arg|].
  - destruct (Py.truthy arg) eqn:T.
    + destruct (path_exists arg && Py.endswith (Py.lower arg) ".flac") eqn:V;
        [|discriminate].
      intros H; injection H as <-. apply andb_prop in V as [V _]. split.
      * exists arg. auto.
      * unfold app_init, file_selected, init_form. cbn [current_file].
        unfold PosixPath.abspath. rewrite normpath_truthy. reflexivity.
    + intros H; injection H as <-. reflexivity.
  - intros H; injection H as <-. reflexivity.
Qed.

(** * The further properties at concrete inputs *)

(** X1 for the empty string as the selected file. *)
Lemma no_file_no_launch_witness :
  let s := mkState scenario_disk (init_form (Some "")) [] in
  runs (trace (snd (save_tags Metaflac.disk demo_tool demo_now s))) = [] /\
  fst (show_raw_output Metaflac.disk demo_tool s) = inl None.
Proof.
  destruct (no_file_no_launch Metaflac.disk demo_tool
              (mkState scenario_disk (init_form (Some "")) []) demo_now true
              eq_refl) as [_ [E2 [_ [_ E5]]]].
  cbv zeta in *. rewrite E2, E5. split; reflexivity.
Defined.

(** X2 on the form with blanks around its texts: the save writes them
    trimmed and leaves them untrimmed in the form. *)
Lemma save_keeps_form_witness :
  tag_entries
    (gui (snd (save_tags Metaflac.disk demo_tool demo_now
                 (mkState scenario_disk untidy_form [])))) =
  tag_entries untidy_form.
Proof.
  exact (proj1 (proj2 (save_keeps_form Metaflac.disk demo_tool
                         (mkState scenario_disk untidy_form []) demo_now
                         _ (or_introl eq_refl)))).
Defined.

(** X4 on the save that the tool refuses half way: the handler returns
    normally. *)
Lemma only_the_probe_escapes_witness :
  fst (save_tags Metaflac.disk demo_tool demo_now
         (mkState scenario_disk refused_form [])) = inl tt \/
  exists w1 m,
    demo_tool scenario_disk cmd_version = (w1, LaunchFailed m) /\
    fst (save_tags Metaflac.disk demo_tool demo_now
           (mkState scenario_disk refused_form [])) = inr (OtherException m).
Proof.
  exact (only_the_probe_escapes Metaflac.disk demo_tool
           (mkState scenario_disk refused_form []) demo_now _
           (or_intror (or_introl eq_refl))).
Defined.

(** X5 for a selected file that is not on the machine: the removal exits
    1 and the form keeps its title. *)
Lemma remove_all_failure_keeps_form_witness :
  let g := fill_form (Some "/music/gone.flac") [("TITLE", "Song")] "" in
  let res := remove_all_tags Metaflac.disk demo_tool true
               (mkState scenario_disk g []) in
  fst res = inl tt /\ gui (snd res) = g /\ world (snd res) = scenario_disk.
Proof.
  destruct (remove_all_failure_keeps_form Metaflac.disk demo_tool
              (mkState scenario_disk
                 (fill_form (Some "/music/gone.flac") [("TITLE", "Song")] "")
                 [])
              "/music/gone.flac" scenario_disk "" "" scenario_disk
              (Exited 1 "" "") eq_refl eq_refl eq_refl
              (fun H : 1%Z = 0%Z =>
                 eq_ind 1%Z (fun z => match z with 0%Z => False | _ => True end)
                   I 0%Z H)) as [G [W [R _]]].
  cbv zeta. split; [exact R|]. split; [exact G | exact W].
Defined.

(** X6 on the load of the scenario. *)
Lemma handlers_keep_fields_witness :
  keys (tag_entries
          (gui (snd (load_tags Metaflac.disk demo_tool
                       (mkState scenario_disk (init_form (Some demo_path)) [])))))
  = common_tags.
Proof.
  exact (proj1 (handlers_keep_fields Metaflac.disk demo_tool
                  (mkState scenario_disk (init_form (Some demo_path)) [])
                  demo_now true _ (or_introl eq_refl))).
Defined.

(** X9 on the save that the tool refuses half way: no [Quit]. *)
Lemma save_and_exit_quits_on_success_witness :
  exists evs,
    trace (snd (save_tags_and_exit Metaflac.disk demo_tool
                  (mkState scenario_disk refused_form []))) = [] ++ evs /\
    (In Quit evs <->
     snd (exec demo_tool scenario_disk (save_plan demo_path refused_form))
     = None).
Proof.
  exact (save_and_exit_quits_on_success Metaflac.disk demo_tool
           (mkState scenario_disk refused_form []) demo_path
           scenario_disk "" "" eq_refl eq_refl).
Defined.

(** X10 on a file without tags. *)
Lemma load_blank_export_witness :
  let g' := gui (snd (load_tags Metaflac.disk demo_tool
                        (mkState (demo_disk []) blank_artist_form []))) in
  tag_entries g' = setup_entries /\ custom_tags_text g' = "".
Proof.
  destruct (load_blank_export Metaflac.disk demo_tool
              (mkState (demo_disk []) blank_artist_form []) demo_path
              (demo_disk []) "" "" (demo_disk []) "" ""
              eq_refl eq_refl eq_refl eq_refl) as [_ [_ C]].
  cbv zeta. split; [reflexivity | exact C].
Defined.

(** X11 for the form of the scenario and the empty form. *)
Lemma load_forgets_previous_form_witness :
  tag_entries
    (gui (snd (load_tags Metaflac.disk demo_tool
                 (mkState scenario_disk blank_artist_form [])))) =
  tag_entries
    (gui (snd (load_tags Metaflac.disk demo_tool
                 (mkState scenario_disk (init_form (Some demo_path)) [Quit])))).
Proof.
  exact (proj1 (load_forgets_previous_form Metaflac.disk demo_tool
                  scenario_disk blank_artist_form (init_form (Some demo_path))
                  [] [Quit] demo_path scenario_disk "" ""
                  eq_refl eq_refl eq_refl eq_refl eq_refl)).
Defined.

(** X12 on a file with two custom tags, one with blanks around it. *)
Lemma loaded_custom_lines_written_back_witness :
  let d := demo_disk ["XCUSTOM=1"; "  mood=calm "; "TITLE=Song"] in
  let s1 := snd (load_tags Metaflac.disk demo_tool
                   (mkState d (init_form (Some demo_path)) [])) in
  runs (trace (snd (save_tags Metaflac.disk demo_tool demo_now s1))) =
  [cmd_version; cmd_export demo_path; cmd_version; cmd_remove_all demo_path;
   cmd_set_tag "TITLE=Song" demo_path; cmd_set_tag "XCUSTOM=1" demo_path;
   cmd_set_tag "mood=calm" demo_path].
Proof.
  exact (loaded_custom_lines_written_back Metaflac.disk demo_tool
           (mkState (demo_disk ["XCUSTOM=1"; "  mood=calm "; "TITLE=Song"])
              (init_form (Some demo_path)) [])
           demo_now demo_path
           (demo_disk ["XCUSTOM=1"; "  mood=calm "; "TITLE=Song"]) "" ""
           (demo_disk ["XCUSTOM=1"; "  mood=calm "; "TITLE=Song"])
           (universal_newlines
              (Metaflac.export ["XCUSTOM=1"; "  mood=calm "; "TITLE=Song"])) ""
           (demo_disk ["XCUSTOM=1"; "  mood=calm "; "TITLE=Song"]) "" ""
           eq_refl eq_refl eq_refl eq_refl eq_refl eq_refl).
Defined.

(** X13 on the save that the tool refuses half way. *)
Lemma set_tags_are_well_formed_witness :
  exists evs,
    trace (snd (save_tags Metaflac.disk demo_tool demo_now
                  (mkState scenario_disk refused_form []))) = [] ++ evs /\
    launches_only
      (fun argv =>
         argv = cmd_version \/
         exists file,
           file_selected refused_form = Some file /\
           (argv = cmd_remove_all file \/
            exists field,
              argv = cmd_set_tag field file /\
              Py.has_eq field = true /\ Py.strip field = field))
      evs.
Proof.
  exact (set_tags_are_well_formed Metaflac.disk demo_tool
           (mkState scenario_disk refused_form []) demo_now eq_refl
           _ (or_introl eq_refl)).
Defined.

(** X14 at the scenario with the artist erased. *)
Lemma save_replaces_file_tags_witness :
  Metaflac.comments
    (world (snd (save_tags Metaflac.disk demo_tool demo_now
                   (mkState scenario_disk edited_form [])))) =
  ["TITLE=Song"; "XCUSTOM=1"].
Proof.
  refine (proj1 (save_replaces_file_tags in_order Metaflac.named scenario_disk
                   edited_form demo_now demo_now [] eq_refl eq_refl _)).
  apply Forall_of_forallb. vm_compute. reflexivity.
Defined.

(** X15 on the custom area whose first line the tool refuses. *)
Lemma save_partial_write_witness :
  Metaflac.comments
    (world (snd (save_tags Metaflac.disk demo_tool demo_now
                   (mkState scenario_disk refused_form [])))) =
  ["TITLE=Song"].
Proof.
  pose proof (save_partial_write in_order Metaflac.named scenario_disk refused_form
                demo_now [] ["TITLE=Song"] ["FOO=bar"] "=bad"
                eq_refl eq_refl eq_refl
                (Forall_of_forallb Metaflac.named ["TITLE=Song"] eq_refl)
                eq_refl) as E.
  cbv zeta in E. unfold demo_tool. rewrite E. reflexivity.
Defined.



(** X18 for a file given relative to the current directory. *)
Lemma start_up_loads_accepted_file_witness :
  snd (app_init Metaflac.disk demo_tool (Some "/music/a.flac") scenario_disk)
  = "/music/a.flac" /\
  runs (trace (snd (fst (app_init Metaflac.disk demo_tool
                           (Some "/music/a.flac") scenario_disk)))) =
  [cmd_version; cmd_export "/music/a.flac"].
Proof.
  destruct (start_up_loads_accepted_file Metaflac.disk demo_tool
              (fun _ => true) "/music" (Some "a.flac") scenario_disk
              (Some "/music/a.flac") eq_refl) as [_ E].
  rewrite E. split; reflexivity.
Defined.
